(** * Parity-style trace API (eth/api_tracer_parity.go)

    A shallow embedding of the request handlers of the [trace_*] RPC module
    and of the helpers they are built from: the default-tracer resolver, the
    response decorator, the synthesis of block and uncle reward records, the
    block aggregator and the range validator.

    Conventions of the embedding:
    - a Go pointer [*T] is an [option T], [None] being [nil];
    - a Go slice that may be [nil] and whose nil-ness is observable on the
      wire ([TraceAddress]) is an [option (list _)];
    - fixed-width integers are [Z]; the only conversion the file performs,
      [uint64(number)], is written out as a reduction modulo [2^64];
    - [*big.Int] is an [option Z];
    - a Go [error] is the message it carries;
    - a call returns an [outcome]: a value with a nil error, an error with a
      nil value, or a run-time panic (failed type assertion, nil pointer). *)

From stdpp Require Import base option list gmap strings pretty.
From Stdlib Require Import ZArith Lia.

Set Warnings "-register-all".
Set Default Proof Using "Type".

(** ** Outcomes of calls *)

Definition error := string.

Inductive outcome (A : Type) : Type :=
| Ok (a : A)
| Err (e : error)
| Panic.
Arguments Ok {A} a.
Arguments Err {A} e.
Arguments Panic {A}.

#[global] Instance outcome_ret : MRet outcome := @Ok.
#[global] Instance outcome_bind : MBind outcome := fun A B f m =>
  match m with
  | Ok a => f a
  | Err e => Err e
  | Panic => Panic
  end.

(** [fmt.Errorf] with one or two [%d] verbs, as the handlers use it. *)
Definition fmt_d (n : Z) : string := pretty n.

(** ** Chain data (package [types]) and [common] *)

Definition Address := Z.   (* common.Address, 20 bytes *)
Definition Hash := Z.      (* common.Hash, 32 bytes *)

Definition uint64_of (n : Z) : Z := n mod 2 ^ 64.

Module types.
(** Modelled from the spec: the declarations of [types.Header] and
    [types.Block] are not in this file; a header carries the coinbase
    address and the block number, a block its header, its uncle headers
    and its hash, which is all the handlers read. *)
Record Header := {
  Coinbase : Address;
  Number : Z;
}.

Record Block := {
  header : Header;
  uncles : list Header;
  hash : Hash;
}.

Definition Block_Header (b : Block) : Header := header b.
Definition Block_Uncles (b : Block) : list Header := uncles b.
Definition Block_Coinbase (b : Block) : Address := Coinbase (header b).
Definition Block_Hash (b : Block) : Hash := hash b.
Definition Block_Number (b : Block) : Z := Number (header b).
Definition Block_NumberU64 (b : Block) : Z := uint64_of (Number (header b)).
End types.

(** [big.Int.Cmp] *)
Definition big_Cmp (x y : Z) : Z :=
  match (x ?= y)%Z with
  | Lt => (-1)%Z
  | Eq => 0%Z
  | Gt => 1%Z
  end.

(** ** Trace records *)

(** TraceFilterArgs represents the arguments for a call. [FromBlock],
    [ToBlock], [After] and [Count] are unsigned 64-bit numbers. *)
Record TraceFilterArgs := {
  FromBlock : Z;
  ToBlock : Z;
  FromAddress : option Address;
  ToAddress : option Address;
  After : Z;
  Count : Z;
}.

(** TraceRewardAction: a Parity formatted trace reward action. *)
Record TraceRewardAction := {
  Value : option Z;
  Author : option Address;
  RewardType : string;
}.

(** ParityTrace, over the type [V] of the dynamic values its [Result] holds. *)
Record ParityTrace (V : Type) := {
  Action : TraceRewardAction;
  BlockHash : Hash;
  BlockNumber : Z;
  Error : string;
  Result : V;
  Subtraces : Z;
  TraceAddress : option (list Z);
  TransactionHash : option Hash;
  TransactionPosition : option Z;
  Type_ : string;
}.
Arguments Action {V}.
Arguments BlockHash {V}.
Arguments BlockNumber {V}.
Arguments Error {V}.
Arguments Result {V}.
Arguments Subtraces {V}.
Arguments TraceAddress {V}.
Arguments TransactionHash {V}.
Arguments TransactionPosition {V}.
Arguments Type_ {V}.

(** Values of type [interface{}] that flow through this file: the nil
    interface, a [json.RawMessage], a [*ParityTrace], a
    [map[string]interface{}], and any other dynamic value ([Dyn]). *)
Inductive iface (Dyn : Type) : Type :=
| INil
| IRawMessage (raw : string)
| IParityTrace (p : option (ParityTrace (iface Dyn)))
| IMap (m : gmap string (iface Dyn))
| IOther (d : Dyn).
Arguments INil {Dyn}.
Arguments IRawMessage {Dyn} raw.
Arguments IParityTrace {Dyn} p.
Arguments IMap {Dyn} m.
Arguments IOther {Dyn} d.

(** Modelled from the spec: [txTraceResult] is declared with the tracer
    subsystem, outside this file: one entry per transaction, holding the
    tracer's payload or an error message. *)
Record txTraceResult (Dyn : Type) := {
  tx_Result : iface Dyn;
  tx_Error : string;
}.
Arguments tx_Result {Dyn}.
Arguments tx_Error {Dyn}.

(** Modelled from the spec: [TraceConfig] is declared with the tracer
    subsystem, outside this file; it carries at least a nullable tracer
    identifier and the nested-output flag. The fields this file never reads
    are kept together in [OtherFields]. *)
Record TraceConfig (Extra : Type) := {
  Tracer : option string;
  NestedTraceOutput : bool;
  OtherFields : Extra;
}.
Arguments Tracer {Extra}.
Arguments NestedTraceOutput {Extra}.
Arguments OtherFields {Extra}.

(** ** The node *)

(** Chain storage and lookup, and the miner's candidate block, as far as the
    handlers use them. *)
Record BlockChain (ChainConfig : Type) := {
  Config : ChainConfig;
  CurrentBlock : option types.Block;
  GetBlockByNumber : Z → option types.Block;
}.
Arguments Config {ChainConfig}.
Arguments CurrentBlock {ChainConfig}.
Arguments GetBlockByNumber {ChainConfig}.

Record Miner := {
  PendingBlock : option types.Block;
}.

Record Ethereum (ChainConfig : Type) := {
  blockchain : BlockChain ChainConfig;
  miner : Miner;
}.
Arguments blockchain {ChainConfig}.
Arguments miner {ChainConfig}.

Record PrivateTraceAPI (ChainConfig : Type) := {
  eth : Ethereum ChainConfig;
}.
Arguments eth {ChainConfig}.

(** ** Collaborators

    What the file imports and does not define: the types owned by other
    packages (the chain configuration, the remaining fields of a trace
    configuration with their zero value, the arguments of a hypothetical
    call, a block reference, a subscription handle, the dynamic values that
    tracers produce), the sentinel block numbers of package [rpc], the
    consensus reward rule [ethash.GetRewards], the five tracer entry points
    and [json.Unmarshal] at the type [[]interface{}]. *)
Class Collaborators := {
  ChainConfig : Type;
  Extra : Type;
  CallArgs : Type;
  BlockNumberOrHash : Type;
  Subscription : Type;
  Dyn : Type;
  zeroExtra : Extra;
  PendingBlockNumber : Z;
  LatestBlockNumber : Z;
  GetRewards :
    ChainConfig → types.Header → list types.Header → option Z * list (option Z);
  traceBlockByNumber :
    Ethereum ChainConfig → Z → option (TraceConfig Extra) →
    outcome (list (option (txTraceResult Dyn)));
  traceTransaction :
    Ethereum ChainConfig → Hash → option (TraceConfig Extra) → outcome (iface Dyn);
  traceChain :
    Ethereum ChainConfig → types.Block → types.Block → option (TraceConfig Extra) →
    outcome (option Subscription);
  traceCall :
    Ethereum ChainConfig → CallArgs → BlockNumberOrHash → option (TraceConfig Extra) →
    outcome (iface Dyn);
  traceCallMany :
    Ethereum ChainConfig → list CallArgs → BlockNumberOrHash →
    option (TraceConfig Extra) → outcome (iface Dyn);
  json_Unmarshal : string → outcome (list (iface Dyn));
}.

(** ** The handlers and their helpers *)

Section TraceAPI.
Context `{Collaborators}.

Local Abbreviation value := (iface Dyn).
Local Abbreviation trace := (ParityTrace (iface Dyn)).
Local Abbreviation config_ptr := (option (TraceConfig Extra)).

(** [&TraceConfig{}] *)
Definition emptyTraceConfig : TraceConfig Extra :=
  {| Tracer := None; NestedTraceOutput := false; OtherFields := zeroExtra |}.

(** setTraceConfigDefaultTracer sets the default tracer to
    "callTracerParity" if none set. The pointer it returns is the one it was
    given, or a new one when it was given nil. *)
Definition setTraceConfigDefaultTracer (config : config_ptr) : config_ptr :=
  let config :=
    match config with
    | None => emptyTraceConfig
    | Some c => c
    end in
  match Tracer config with
  | None =>
      let tracer := "callTracerParity" in
      Some {| Tracer := Some tracer;
              NestedTraceOutput := NestedTraceOutput config;
              OtherFields := OtherFields config |}
  | Some _ => Some config
  end.

(** decorateNestedTraceResponse formats trace results the way Parity does. *)
Definition decorateNestedTraceResponse (res : value) (tracer : string) : value :=
  let out : gmap string value := ∅ in
  if decide (tracer = "callTracerParity") then
    IMap (<["trace" := res]> out)
  else if decide (tracer = "stateDiffTracer") then
    IMap (<["stateDiff" := res]> out)
  else
    res.

(** decorateResponse applies formatting to trace results if needed. *)
Definition decorateResponse (res : value) (config : config_ptr) : outcome value :=
  match config with
  | Some c =>
      if NestedTraceOutput c then
        match Tracer c with
        | Some tracer => Ok (decorateNestedTraceResponse res tracer)
        | None => Ok res
        end
      else Ok res
  | None => Ok res
  end.

Definition traceBlockReward (eth : Ethereum ChainConfig) (block : types.Block)
    (config : config_ptr) : outcome (option trace) :=
  let chainConfig := Config (blockchain eth) in
  let minerReward :=
    (GetRewards chainConfig (types.Block_Header block) (types.Block_Uncles block)).1 in
  let coinbase := types.Block_Coinbase block in
  let tr :=
    {| Type_ := "reward";
       Action := {| Value := minerReward;
                    Author := Some coinbase;
                    RewardType := "block" |};
       TraceAddress := Some [];
       BlockHash := types.Block_Hash block;
       BlockNumber := types.Block_NumberU64 block;
       Error := "";
       Result := INil;
       Subtraces := 0;
       TransactionHash := None;
       TransactionPosition := None |} in
  Ok (Some tr).

(** The body of the loop of [traceBlockUncleRewards] at index [i]. *)
Definition uncleRewardsStep (block : types.Block) (uncleRewards : list (option Z))
    (i : nat) (uncle : types.Header) (results : list (option trace))
  : list (option trace) :=
  if decide (i < length uncleRewards)%nat then
    let coinbase := types.Coinbase uncle in
    <[ i := Some
         {| Type_ := "reward";
            Action := {| Value := uncleRewards !!! i;
                         Author := Some coinbase;
                         RewardType := "uncle" |};
            TraceAddress := Some [];
            BlockNumber := types.Block_NumberU64 block;
            BlockHash := types.Block_Hash block;
            Error := "";
            Result := INil;
            Subtraces := 0;
            TransactionHash := None;
            TransactionPosition := None |} ]> results
  else results.

(** [for i, uncle := range block.Uncles()], from index [i] on. *)
Fixpoint uncleRewardsLoop (block : types.Block) (uncleRewards : list (option Z))
    (i : nat) (uncles : list types.Header) (results : list (option trace))
  : list (option trace) :=
  match uncles with
  | [] => results
  | uncle :: rest =>
      uncleRewardsLoop block uncleRewards (S i) rest
        (uncleRewardsStep block uncleRewards i uncle results)
  end.

Definition traceBlockUncleRewards (eth : Ethereum ChainConfig) (block : types.Block)
    (config : config_ptr) : outcome (list (option trace)) :=
  let chainConfig := Config (blockchain eth) in
  let uncleRewards :=
    (GetRewards chainConfig (types.Block_Header block) (types.Block_Uncles block)).2 in
  let results := replicate (length uncleRewards) None in
  Ok (uncleRewardsLoop block uncleRewards 0 (types.Block_Uncles block) results).

(** The [switch] of [Block] that fetches the block to trace. *)
Definition fetchBlock (api : PrivateTraceAPI ChainConfig) (number : Z)
  : option types.Block :=
  if decide (number = PendingBlockNumber) then
    PendingBlock (miner (eth api))
  else if decide (number = LatestBlockNumber) then
    CurrentBlock (blockchain (eth api))
  else
    GetBlockByNumber (blockchain (eth api)) (uint64_of number).

(** The loop of [Block] over the per-transaction results: each payload is
    asserted to be a [json.RawMessage], decoded as a sequence and spliced
    onto [results]. *)
Fixpoint appendTraceResults (traceResults : list (option (txTraceResult Dyn)))
    (results : list value) : outcome (list value) :=
  match traceResults with
  | [] => Ok results
  | result :: rest =>
      match result with
      | Some result =>
          match tx_Result result with
          | IRawMessage raw =>
              tmp ← json_Unmarshal raw;
              appendTraceResults rest (results ++ tmp)
          | _ => Panic
          end
      | None => Panic
      end
  end.

(** The body of [Block], over the two reward synthesizers it calls. *)
Definition BlockWith
    (rewardOf : Ethereum ChainConfig → types.Block → config_ptr → outcome (option trace))
    (uncleRewardsOf :
       Ethereum ChainConfig → types.Block → config_ptr → outcome (list (option trace)))
    (api : PrivateTraceAPI ChainConfig) (number : Z) (config : config_ptr)
  : outcome (list value) :=
  match fetchBlock api number with
  | None => Err ("block #" +:+ fmt_d number +:+ " not found")
  | Some block =>
      let config := setTraceConfigDefaultTracer config in
      traceResults ← traceBlockByNumber (eth api) number config;
      traceReward ← rewardOf (eth api) block config;
      traceUncleRewards ← uncleRewardsOf (eth api) block config;
      let results := [] in
      results ← appendTraceResults traceResults results;
      let results := results ++ [IParityTrace traceReward] in
      let results := results ++ (IParityTrace <$> traceUncleRewards) in
      Ok results
  end.

(** Block returns the structured logs created during the execution of EVM,
    followed by the reward records of the block. *)
Definition Block (api : PrivateTraceAPI ChainConfig) (number : Z) (config : config_ptr)
  : outcome (list value) :=
  BlockWith traceBlockReward traceBlockUncleRewards api number config.

(** Transaction returns the structured logs created during the execution of
    EVM for one transaction. *)
Definition Transaction (api : PrivateTraceAPI ChainConfig) (hash : Hash)
    (config : config_ptr) : outcome value :=
  let config := setTraceConfigDefaultTracer config in
  traceTransaction (eth api) hash config.

(** Filter checks the block interval and starts the chain tracer on it. The
    conversion of [FromBlock] and [ToBlock] to [uint64] is the identity. *)
Definition Filter (api : PrivateTraceAPI ChainConfig) (args : TraceFilterArgs)
    (config : config_ptr) : outcome (option Subscription) :=
  let config := setTraceConfigDefaultTracer config in
  let start := FromBlock args in
  let end_ := ToBlock args in
  let from := GetBlockByNumber (blockchain (eth api)) start in
  let to := GetBlockByNumber (blockchain (eth api)) end_ in
  match from with
  | None => Err ("starting block #" +:+ fmt_d start +:+ " not found")
  | Some from =>
      match to with
      | None => Err ("end block #" +:+ fmt_d end_ +:+ " not found")
      | Some to =>
          if decide (big_Cmp (types.Block_Number from) (types.Block_Number to) >= 0)%Z
          then
            Err ("end block (#" +:+ fmt_d end_ +:+
                 ") needs to come after start block (#" +:+ fmt_d start +:+ ")")
          else
            traceChain (eth api) from to config
      end
  end.

(** Call lets you trace a given eth_call. *)
Definition Call (api : PrivateTraceAPI ChainConfig) (args : CallArgs)
    (blockNrOrHash : BlockNumberOrHash) (config : config_ptr) : outcome value :=
  let config := setTraceConfigDefaultTracer config in
  res ← traceCall (eth api) args blockNrOrHash config;
  decorateResponse res config.

(** CallMany traces a batch of calls on top of one block. *)
Definition CallMany (api : PrivateTraceAPI ChainConfig) (txs : list CallArgs)
    (blockNrOrHash : BlockNumberOrHash) (config : config_ptr) : outcome value :=
  let config := setTraceConfigDefaultTracer config in
  res ← traceCallMany (eth api) txs blockNrOrHash config;
  Ok res.

(** ** Vocabulary of the specification *)

(** The reward record as the specification describes it: type "reward", the
    given reward type, author and value, an empty trace address, no
    sub-traces, no transaction hash or position, no result, and the hash and
    number of the block. *)
Definition rewardRecord (rewardType : string) (author : Address) (value : option Z)
    (block : types.Block) : trace :=
  {| Action := {| Value := value; Author := Some author; RewardType := rewardType |};
     BlockHash := types.Block_Hash block;
     BlockNumber := types.Block_NumberU64 block;
     Error := "";
     Result := INil;
     Subtraces := 0;
     TraceAddress := Some [];
     TransactionHash := None;
     TransactionPosition := None;
     Type_ := "reward" |}.

(** The consensus rewards of a block: the miner's and the uncles'. *)
Definition rewardsOf (api : PrivateTraceAPI ChainConfig) (block : types.Block)
  : option Z * list (option Z) :=
  GetRewards (Config (blockchain (eth api)))
    (types.Block_Header block) (types.Block_Uncles block).

(** A per-transaction result decodes to the sequence [tmp]: it is there, its
    payload is a raw message, and the decoder accepts it as a sequence. *)
Definition decodesTo (result : option (txTraceResult Dyn)) (tmp : list value) : Prop :=
  ∃ r raw, result = Some r ∧ tx_Result r = IRawMessage raw ∧ json_Unmarshal raw = Ok tmp.

End TraceAPI.

(** ** A small chain to run the handlers on

    Test doubles for the collaborators: five stored blocks, of which block
    100 has two uncles and two transactions whose traces decode to one and
    two entries; a decoder that knows the payloads used here; a reward rule
    in the style of the consensus engine, and two variants of it that return
    one uncle reward fewer, or one more, than the block has uncles. *)
Module Demo.
Local Open Scope Z_scope.

Definition uncleA : types.Header := {| types.Coinbase := 501; types.Number := 98 |}.
Definition uncleB : types.Header := {| types.Coinbase := 502; types.Number := 99 |}.

Definition plainBlock (n : Z) : types.Block :=
  {| types.header := {| types.Coinbase := 400 + n; types.Number := n |};
     types.uncles := [];
     types.hash := 7000 + n |}.

Definition block100 : types.Block :=
  {| types.header := {| types.Coinbase := 500; types.Number := 100 |};
     types.uncles := [uncleA; uncleB];
     types.hash := 7100 |}.

Definition chain : BlockChain unit :=
  {| Config := tt;
     CurrentBlock := Some block100;
     GetBlockByNumber := fun n =>
       if decide (n = 100) then Some block100
       else if decide (9 ≤ n ≤ 12)%Z then Some (plainBlock n)
       else None |}.

Definition node : Ethereum unit :=
  {| blockchain := chain; miner := {| PendingBlock := None |} |}.

Definition api : PrivateTraceAPI unit := {| eth := node |}.

Definition exactRewards (_ : unit) (h : types.Header) (us : list types.Header)
  : option Z * list (option Z) :=
  (Some (2000 + 2000 / 32 * Z.of_nat (length us)),
   (fun u => Some ((types.Number u + 8 - types.Number h) * 2000 / 8)) <$> us).

Definition shortRewards (c : unit) (h : types.Header) (us : list types.Header)
  : option Z * list (option Z) :=
  ((exactRewards c h us).1, take (length us - 1)%nat (exactRewards c h us).2).

Definition longRewards (c : unit) (h : types.Header) (us : list types.Header)
  : option Z * list (option Z) :=
  ((exactRewards c h us).1, (exactRewards c h us).2 ++ [Some 0]).

Definition payload (raw : string) : option (txTraceResult string) :=
  Some {| tx_Result := IRawMessage raw; tx_Error := "" |}.

Definition decode (raw : string) : outcome (list (iface string)) :=
  if decide (raw = "[a]") then Ok [IOther "a"]
  else if decide (raw = "[b,c]") then Ok [IOther "b"; IOther "c"]
  else if decide (raw = "null") then Ok []
  else Err "json: cannot unmarshal object into Go value of type []interface {}".

Definition collaboratorsWith
    (rewards : unit → types.Header → list types.Header → option Z * list (option Z))
  : Collaborators :=
  {| ChainConfig := unit;
     Extra := unit;
     CallArgs := Z;
     BlockNumberOrHash := Z;
     Subscription := Z * Z;
     Dyn := string;
     zeroExtra := tt;
     PendingBlockNumber := -2;
     LatestBlockNumber := -1;
     GetRewards := rewards;
     traceBlockByNumber := fun _ number _ =>
       if decide (number = 100) then Ok [payload "[a]"; payload "[b,c]"]
       else if decide (number = 11) then Ok [payload "[a]"; payload "{}"; payload "[b,c]"]
       else if decide (number = 12) then Err "tracing failed"
       else Ok [];
     traceTransaction := fun _ _ _ => Ok (IRawMessage "[a]");
     traceChain := fun _ from to _ =>
       Ok (Some (types.Block_Number from, types.Block_Number to));
     traceCall := fun _ _ _ _ => Ok (IRawMessage "[a]");
     traceCallMany := fun _ _ _ _ => Ok (IRawMessage "[b,c]");
     json_Unmarshal := decode |}.

Definition exact : Collaborators := collaboratorsWith exactRewards.
Definition short : Collaborators := collaboratorsWith shortRewards.
Definition long : Collaborators := collaboratorsWith longRewards.

Definition nested (tracer : option string) : TraceConfig unit :=
  {| Tracer := tracer; NestedTraceOutput := true; OtherFields := tt |}.

Definition flat (tracer : option string) : TraceConfig unit :=
  {| Tracer := tracer; NestedTraceOutput := false; OtherFields := tt |}.

Definition range (from to : Z) : TraceFilterArgs :=
  {| FromBlock := from; ToBlock := to; FromAddress := None; ToAddress := None;
     After := 0; Count := 0 |}.

End Demo.

(** The same chain with collaborators that fail: the tracer of block 100
    reports its second transaction as failed (an error message and no
    payload); the call tracer fails on call 0 and panics on call 1; the
    batch tracer fails on the empty batch. *)
Module Faulty.
Local Open Scope Z_scope.

Definition failed (msg : string) : option (txTraceResult string) :=
  Some {| tx_Result := INil; tx_Error := msg |}.

Definition collaborators : Collaborators :=
  {| ChainConfig := unit;
     Extra := unit;
     CallArgs := Z;
     BlockNumberOrHash := Z;
     Subscription := Z * Z;
     Dyn := string;
     zeroExtra := tt;
     PendingBlockNumber := -2;
     LatestBlockNumber := -1;
     GetRewards := Demo.exactRewards;
     traceBlockByNumber := fun _ number _ =>
       if decide (number = 100) then
         Ok [Demo.payload "[a]"; failed "execution reverted"; Demo.payload "[b,c]"]
       else Ok [];
     traceTransaction := fun _ _ _ => Err "transaction not found";
     traceChain := fun _ from to _ =>
       Ok (Some (types.Block_Number from, types.Block_Number to));
     traceCall := fun _ args _ _ =>
       if decide (args = 0) then Err "execution reverted"
       else if decide (args = 1) then Panic
       else Ok (IRawMessage "[a]");
     traceCallMany := fun _ txs _ _ =>
       match txs with
       | [] => Err "empty batch"
       | _ => Ok (IRawMessage "[b,c]")
       end;
     json_Unmarshal := Demo.decode |}.

End Faulty.

(** The same chain once more, with payloads that are JSON texts: the two
    transactions of block 100 trace to the arrays [1] and [2,3]; of the
    three transactions of block 11, the second failed and is reported with
    an error message and no payload. Decoded numbers are written as the
    text they were decoded from. *)
Module Sample.
Local Open Scope Z_scope.

Definition decode (raw : string) : outcome (list (iface string)) :=
  if decide (raw = "[1]") then Ok [IOther "1"]
  else if decide (raw = "[2,3]") then Ok [IOther "2"; IOther "3"]
  else if decide (raw = "null") then Ok []
  else Err "json: cannot unmarshal object into Go value of type []interface {}".

Definition collaborators : Collaborators :=
  {| ChainConfig := unit;
     Extra := unit;
     CallArgs := Z;
     BlockNumberOrHash := Z;
     Subscription := Z * Z;
     Dyn := string;
     zeroExtra := tt;
     PendingBlockNumber := -2;
     LatestBlockNumber := -1;
     GetRewards := Demo.exactRewards;
     traceBlockByNumber := fun _ number _ =>
       if decide (number = 100) then Ok [Demo.payload "[1]"; Demo.payload "[2,3]"]
       else if decide (number = 11) then
         Ok [Demo.payload "[1]"; Faulty.failed "execution reverted"; Demo.payload "[2,3]"]
       else Ok [];
     traceTransaction := fun _ _ _ => Ok (IRawMessage "[1]");
     traceChain := fun _ from to _ =>
       Ok (Some (types.Block_Number from, types.Block_Number to));
     traceCall := fun _ _ _ _ => Ok (IRawMessage "[1]");
     traceCallMany := fun _ _ _ _ => Ok (IRawMessage "[2,3]");
     json_Unmarshal := decode |}.

End Sample.

(** ** The configuration resolver and the response decorator *)

Section ResolverAndDecorator.
Context `{Collaborators}.

Lemma setTraceConfigDefaultTracer_is_Some (config : option (TraceConfig Extra)) :
  ∃ c, setTraceConfigDefaultTracer config = Some c ∧ is_Some (Tracer c).
Proof.
  destruct config as [[[t|] n o]|]; cbn; eauto.
Qed.

(** C3. Given nil, the resolver builds an empty configuration and gives it
    the default tracer; given a configuration without tracer, it sets the
    tracer to "callTracerParity" and keeps the other fields; given a
    configuration with a tracer, it returns it as it is. *)
Theorem setTraceConfigDefaultTracer_spec :
  setTraceConfigDefaultTracer None
    = Some {| Tracer := Some "callTracerParity";
              NestedTraceOutput := NestedTraceOutput emptyTraceConfig;
              OtherFields := OtherFields emptyTraceConfig |}
  ∧ (∀ c : TraceConfig Extra, Tracer c = None →
       setTraceConfigDefaultTracer (Some c)
         = Some {| Tracer := Some "callTracerParity";
                   NestedTraceOutput := NestedTraceOutput c;
                   OtherFields := OtherFields c |})
  ∧ (∀ (c : TraceConfig Extra) (t : string), Tracer c = Some t →
       setTraceConfigDefaultTracer (Some c) = Some c).
Proof.
  split; [reflexivity|].
  split; intros c.
  - intros Hc. unfold setTraceConfigDefaultTracer. now rewrite Hc.
  - intros t Hc. unfold setTraceConfigDefaultTracer. now rewrite Hc.
Qed.

(** C4. The resolver is idempotent, and a configuration whose tracer is
    set comes back with the same tracer. *)
Theorem setTraceConfigDefaultTracer_idempotent :
  (∀ config : option (TraceConfig Extra),
     setTraceConfigDefaultTracer (setTraceConfigDefaultTracer config)
       = setTraceConfigDefaultTracer config)
  ∧ (∀ (c : TraceConfig Extra) (t : string), Tracer c = Some t →
       Tracer <$> setTraceConfigDefaultTracer (Some c) = Some (Some t)).
Proof.
  split.
  - intros [[[t|] n o]|]; reflexivity.
  - intros c t Hc. unfold setTraceConfigDefaultTracer. rewrite Hc. cbn.
    now rewrite Hc.
Qed.

Lemma decorateNestedTraceResponse_other (res : iface Dyn) (tracer : string) :
  tracer ≠ "callTracerParity" → tracer ≠ "stateDiffTracer" →
  decorateNestedTraceResponse res tracer = res.
Proof.
  intros H1 H2. unfold decorateNestedTraceResponse.
  destruct (decide (tracer = "callTracerParity")); [contradiction|].
  destruct (decide (tracer = "stateDiffTracer")); [contradiction|].
  reflexivity.
Qed.

(** C5. With nested output requested and a tracer set, the decorator wraps
    the result under "trace" for "callTracerParity", under "stateDiff" for
    "stateDiffTracer", and returns it unchanged for any other tracer;
    without nested output, without tracer, or without configuration, it
    returns the result unchanged. *)
Theorem decorateResponse_spec (res : iface Dyn) :
  (∀ c : TraceConfig Extra,
     NestedTraceOutput c = true → Tracer c = Some "callTracerParity" →
     decorateResponse res (Some c) = Ok (IMap {[ "trace" := res ]}))
  ∧ (∀ c : TraceConfig Extra,
       NestedTraceOutput c = true → Tracer c = Some "stateDiffTracer" →
       decorateResponse res (Some c) = Ok (IMap {[ "stateDiff" := res ]}))
  ∧ (∀ (c : TraceConfig Extra) (t : string),
       NestedTraceOutput c = true → Tracer c = Some t →
       t ≠ "callTracerParity" → t ≠ "stateDiffTracer" →
       decorateResponse res (Some c) = Ok res)
  ∧ (∀ c : TraceConfig Extra,
       NestedTraceOutput c = false ∨ Tracer c = None →
       decorateResponse res (Some c) = Ok res)
  ∧ decorateResponse res None = Ok res.
Proof.
  repeat split.
  - intros c Hn Ht. unfold decorateResponse. rewrite Hn, Ht.
    unfold decorateNestedTraceResponse. rewrite decide_True by reflexivity.
    now rewrite insert_empty.
  - intros c Hn Ht. unfold decorateResponse. rewrite Hn, Ht.
    unfold decorateNestedTraceResponse.
    rewrite decide_False by discriminate. rewrite decide_True by reflexivity.
    now rewrite insert_empty.
  - intros c t Hn Ht H1 H2. unfold decorateResponse. rewrite Hn, Ht.
    now rewrite decorateNestedTraceResponse_other.
  - intros c [Hn|Ht]; unfold decorateResponse.
    + now rewrite Hn.
    + rewrite Ht. now destruct (NestedTraceOutput c).
Qed.

End ResolverAndDecorator.

Lemma setTraceConfigDefaultTracer_spec_witness :
  setTraceConfigDefaultTracer (H := Demo.exact) (Some (Demo.flat None))
    = Some (Demo.flat (Some "callTracerParity"))
  ∧ setTraceConfigDefaultTracer (H := Demo.exact) (Some (Demo.nested (Some "stateDiffTracer")))
    = Some (Demo.nested (Some "stateDiffTracer")).
Proof.
  destruct (@setTraceConfigDefaultTracer_spec Demo.exact) as (_ & Hunset & Hset).
  split.
  - exact (Hunset (Demo.flat None) eq_refl).
  - exact (Hset (Demo.nested (Some "stateDiffTracer")) "stateDiffTracer" eq_refl).
Defined.

Lemma setTraceConfigDefaultTracer_idempotent_witness :
  Tracer <$> setTraceConfigDefaultTracer (H := Demo.exact) (Some (Demo.flat (Some "myTracer")))
    = Some (Some "myTracer").
Proof.
  exact (proj2 (@setTraceConfigDefaultTracer_idempotent Demo.exact)
           (Demo.flat (Some "myTracer")) "myTracer" eq_refl).
Defined.

Lemma decorateResponse_spec_witness :
  let r : iface (@Dyn Demo.exact) := IOther "r" in
  decorateResponse (H := Demo.exact) r (Some (Demo.nested (Some "callTracerParity")))
    = Ok (IMap {[ "trace" := r ]})
  ∧ decorateResponse (H := Demo.exact) r (Some (Demo.nested (Some "stateDiffTracer")))
    = Ok (IMap {[ "stateDiff" := r ]})
  ∧ decorateResponse (H := Demo.exact) r (Some (Demo.nested (Some "vmTrace"))) = Ok r
  ∧ decorateResponse (H := Demo.exact) r (Some (Demo.flat (Some "callTracerParity"))) = Ok r
  ∧ decorateResponse (H := Demo.exact) r (Some (Demo.nested None)) = Ok r.
Proof.
  intros r.
  destruct (@decorateResponse_spec Demo.exact r) as (Htrace & Hdiff & Hother & Hplain & _).
  split; [exact (Htrace (Demo.nested (Some "callTracerParity")) eq_refl eq_refl)|].
  split; [exact (Hdiff (Demo.nested (Some "stateDiffTracer")) eq_refl eq_refl)|].
  split.
  { apply (Hother (Demo.nested (Some "vmTrace")) "vmTrace");
      [reflexivity | reflexivity | discriminate | discriminate]. }
  split.
  - apply (Hplain (Demo.flat (Some "callTracerParity"))). left. reflexivity.
  - apply (Hplain (Demo.nested None)). right. reflexivity.
Defined.

(** ** The call handlers *)

Section CallHandlers.
Context `{Collaborators}.

(** C8. When the call tracer succeeds, [Call] returns its result passed
    through the decorator under the resolved configuration; when the batch
    tracer succeeds, [CallMany] returns its result as it is. With nested
    output requested and no tracer chosen, the first is the result wrapped
    under "trace". *)
Theorem Call_decorates_CallMany_does_not
    (api : PrivateTraceAPI ChainConfig) (args : CallArgs) (txs : list CallArgs)
    (blockNrOrHash : BlockNumberOrHash) (config : option (TraceConfig Extra))
    (res : iface Dyn) :
  (traceCall (eth api) args blockNrOrHash (setTraceConfigDefaultTracer config) = Ok res →
   Call api args blockNrOrHash config
     = decorateResponse res (setTraceConfigDefaultTracer config))
  ∧ (traceCallMany (eth api) txs blockNrOrHash (setTraceConfigDefaultTracer config) = Ok res →
     CallMany api txs blockNrOrHash config = Ok res)
  ∧ (∀ c : TraceConfig Extra,
       config = Some c → NestedTraceOutput c = true → Tracer c = None →
       traceCall (eth api) args blockNrOrHash (setTraceConfigDefaultTracer config) = Ok res →
       Call api args blockNrOrHash config = Ok (IMap {[ "trace" := res ]})).
Proof.
  split; [|split].
  - intros Hres. unfold Call. now rewrite Hres.
  - intros Hres. unfold CallMany. now rewrite Hres.
  - intros c -> Hn Ht Hres. unfold Call. rewrite Hres. cbn.
    unfold setTraceConfigDefaultTracer. rewrite Ht. cbn. rewrite Hn.
    unfold decorateNestedTraceResponse. rewrite decide_True by reflexivity.
    now rewrite insert_empty.
Qed.

End CallHandlers.

Lemma Call_decorates_CallMany_does_not_witness :
  Call (H := Demo.exact) Demo.api 1%Z 0%Z (Some (Demo.nested None))
    = Ok (IMap {[ "trace" := IRawMessage "[a]" ]})
  ∧ CallMany (H := Demo.exact) Demo.api [1%Z; 2%Z] 0%Z (Some (Demo.nested None))
    = Ok (IRawMessage "[b,c]").
Proof.
  split.
  - apply (proj2 (proj2 (@Call_decorates_CallMany_does_not Demo.exact
             Demo.api 1%Z [] 0%Z (Some (Demo.nested None)) (IRawMessage "[a]")))
             (Demo.nested None)); reflexivity.
  - apply (proj1 (proj2 (@Call_decorates_CallMany_does_not Demo.exact
             Demo.api 1%Z [1%Z; 2%Z] 0%Z (Some (Demo.nested None)) (IRawMessage "[b,c]")))).
    reflexivity.
Defined.

(** ** Reward synthesis *)

Section RewardSynthesis.
Context `{Collaborators}.

Local Abbreviation trace := (ParityTrace (iface Dyn)).

(** The record the specification asks for an uncle and its reward. *)
Local Abbreviation uncleRecord block :=
  (fun (u : types.Header) (r : option Z) =>
     rewardRecord "uncle" (types.Coinbase u) r block).

Lemma uncleRewardsStep_length block (rw : list (option Z)) i u (results : list (option trace)) :
  length (uncleRewardsStep block rw i u results) = length results.
Proof.
  unfold uncleRewardsStep. case_decide; [apply length_insert | reflexivity].
Qed.

Lemma uncleRewardsStep_lookup block (rw : list (option Z)) i u
    (results : list (option trace)) (j : nat) :
  length results = length rw →
  uncleRewardsStep block rw i u results !! j =
    match decide (i = j), rw !! j with
    | left _, Some r => Some (Some (uncleRecord block u r))
    | _, _ => results !! j
    end.
Proof.
  intros Hlen. unfold uncleRewardsStep.
  destruct (decide (i = j)) as [<-|Hne].
  - case_decide as Hi.
    + destruct (lookup_lt_is_Some_2 rw i Hi) as [r Hr].
      rewrite Hr, list_lookup_insert_eq by lia.
      now rewrite (list_lookup_total_correct _ _ _ Hr).
    + now rewrite (lookup_ge_None_2 rw i) by lia.
  - case_decide; [now rewrite list_lookup_insert_ne | reflexivity].
Qed.

(** The loop invariant, read at one index: entries below the running index
    are left alone; an entry at or above it is written once, when both its
    uncle and its reward exist. *)
Lemma uncleRewardsLoop_lookup block (rw : list (option Z)) (us : list types.Header) :
  ∀ (i : nat) (results : list (option trace)) (j : nat),
    length results = length rw →
    uncleRewardsLoop block rw i us results !! j =
      if decide (i ≤ j) then
        match us !! (j - i), rw !! j with
        | Some u, Some r => Some (Some (uncleRecord block u r))
        | _, _ => results !! j
        end
      else results !! j.
Proof.
  induction us as [|u us IH]; intros i results j Hlen; cbn [uncleRewardsLoop].
  - rewrite lookup_nil. now case_decide.
  - rewrite IH by now rewrite uncleRewardsStep_length.
    rewrite !uncleRewardsStep_lookup by assumption.
    destruct (decide (S i ≤ j)) as [Hlt|Hge].
    + rewrite (decide_True (P := i ≤ j)) by lia.
      replace (j - i) with (S (j - S i)) by lia. cbn [lookup list_lookup].
      destruct (decide (i = j)); [lia|].
      reflexivity.
    + destruct (decide (i = j)) as [<-|Hne].
      * rewrite decide_True by lia. rewrite Nat.sub_diag. cbn.
        now destruct (rw !! i).
      * rewrite (decide_False (P := i ≤ j)) by lia. reflexivity.
Qed.

(** The slice [traceBlockUncleRewards] builds: one record for each uncle
    that has a reward at its index, in uncle order, then one nil entry for
    every reward beyond the last uncle. *)
Lemma uncleRewardsLoop_closed_form block (rw : list (option Z)) (us : list types.Header) :
  uncleRewardsLoop block rw 0 us (replicate (length rw) None)
    = (Some <$> zip_with (uncleRecord block) us rw)
        ++ replicate (length rw - length us) None.
Proof.
  apply list_eq. intros j.
  rewrite uncleRewardsLoop_lookup by apply length_replicate.
  rewrite decide_True by lia. rewrite Nat.sub_0_r.
  destruct (decide (j < length (zip_with (uncleRecord block) us rw))) as [Hj|Hj].
  - rewrite lookup_app_l by now rewrite length_fmap.
    rewrite list_lookup_fmap, lookup_zip_with.
    rewrite length_zip_with in Hj.
    destruct (lookup_lt_is_Some_2 us j ltac:(lia)) as [u ->].
    destruct (lookup_lt_is_Some_2 rw j ltac:(lia)) as [r ->].
    reflexivity.
  - rewrite lookup_app_r by (rewrite length_fmap; lia).
    rewrite length_fmap. rewrite length_zip_with in *.
    destruct (us !! j) as [u|] eqn:Hu; [destruct (rw !! j) as [r|] eqn:Hr|].
    + apply lookup_lt_Some in Hu, Hr. lia.
    + apply lookup_ge_None in Hr.
      rewrite !lookup_ge_None_2; [reflexivity | | ]; rewrite length_replicate; lia.
    + apply lookup_ge_None in Hu.
      destruct (decide (j < length rw)) as [Hr|Hr].
      * rewrite !lookup_replicate_2 by lia. reflexivity.
      * rewrite !lookup_ge_None_2; [reflexivity | | ]; rewrite length_replicate; lia.
Qed.

Lemma traceBlockUncleRewards_closed_form
    (eth : Ethereum ChainConfig) (block : types.Block) (config : option (TraceConfig Extra)) :
  let us := types.Block_Uncles block in
  let rw := (GetRewards (Config (blockchain eth)) (types.Block_Header block) us).2 in
  traceBlockUncleRewards eth block config
    = Ok ((Some <$> zip_with (uncleRecord block) us rw)
            ++ replicate (length rw - length us) None).
Proof.
  intros us rw. unfold traceBlockUncleRewards.
  f_equal. apply uncleRewardsLoop_closed_form.
Qed.

(** C2. The record [traceBlockReward] returns, and every record in the
    slice [traceBlockUncleRewards] returns, has type "reward", no
    sub-traces, an empty (not nil) trace address, no transaction hash and
    no transaction position; its action holds the consensus amount, the
    coinbase of the block, respectively of the uncle at the same index, and
    the reward type "block", respectively "uncle". *)
Theorem reward_records_shape
    (eth : Ethereum ChainConfig) (block : types.Block) (config : option (TraceConfig Extra)) :
  let rewards :=
    GetRewards (Config (blockchain eth)) (types.Block_Header block)
      (types.Block_Uncles block) in
  (∃ tr : trace,
      traceBlockReward eth block config = Ok (Some tr)
      ∧ Type_ tr = "reward" ∧ Subtraces tr = 0%Z ∧ TraceAddress tr = Some []
      ∧ TransactionHash tr = None ∧ TransactionPosition tr = None
      ∧ Action tr = {| Value := rewards.1;
                       Author := Some (types.Block_Coinbase block);
                       RewardType := "block" |})
  ∧ (∃ trs : list (option trace),
        traceBlockUncleRewards eth block config = Ok trs
        ∧ ∀ (i : nat) (tr : trace), trs !! i = Some (Some tr) →
            Type_ tr = "reward" ∧ Subtraces tr = 0%Z ∧ TraceAddress tr = Some []
            ∧ TransactionHash tr = None ∧ TransactionPosition tr = None
            ∧ ∃ (uncle : types.Header) (reward : option Z),
                types.Block_Uncles block !! i = Some uncle
                ∧ rewards.2 !! i = Some reward
                ∧ Action tr = {| Value := reward;
                                 Author := Some (types.Coinbase uncle);
                                 RewardType := "uncle" |}).
Proof.
  intros rewards. split.
  - eexists. split; [reflexivity|]. repeat split.
  - eexists. split; [reflexivity|]. intros i tr Htr.
    rewrite uncleRewardsLoop_lookup in Htr by apply length_replicate.
    rewrite decide_True, Nat.sub_0_r in Htr by lia.
    fold rewards in Htr.
    destruct (types.Block_Uncles block !! i) as [u|] eqn:Hu;
      [destruct (rewards.2 !! i) as [r|] eqn:Hr|].
    + injection Htr as <-. repeat split. exists u, r. repeat split.
    + apply lookup_replicate in Htr as [? _]. discriminate.
    + apply lookup_replicate in Htr as [? _]. discriminate.
Qed.

(** C7. [traceBlockUncleRewards] never fails. For an uncle with a reward
    amount at its index, the slice holds at that index one record of type
    "reward" with reward type "uncle", the uncle's coinbase as author and
    that amount as value; for an uncle without a reward amount at its
    index, the slice has no entry at that index; and the records of the
    slice, in order, are exactly those of the uncles that have a reward. *)
Theorem traceBlockUncleRewards_spec
    (eth : Ethereum ChainConfig) (block : types.Block) (config : option (TraceConfig Extra)) :
  let uncles := types.Block_Uncles block in
  let uncleRewards :=
    (GetRewards (Config (blockchain eth)) (types.Block_Header block) uncles).2 in
  ∃ trs : list (option trace),
    traceBlockUncleRewards eth block config = Ok trs
    ∧ (∀ (i : nat) (uncle : types.Header) (reward : option Z),
         uncles !! i = Some uncle → uncleRewards !! i = Some reward →
         ∃ tr : trace,
           trs !! i = Some (Some tr)
           ∧ tr = rewardRecord "uncle" (types.Coinbase uncle) reward block
           ∧ Type_ tr = "reward"
           ∧ RewardType (Action tr) = "uncle"
           ∧ Author (Action tr) = Some (types.Coinbase uncle))
    ∧ (∀ (i : nat) (uncle : types.Header),
         uncles !! i = Some uncle → uncleRewards !! i = None → trs !! i = None)
    ∧ omap id trs = zip_with (uncleRecord block) uncles uncleRewards.
Proof.
  intros uncles uncleRewards.
  eexists. split; [reflexivity|].
  split; [|split].
  - intros i uncle reward Hu Hr. eexists. split; [|repeat split].
    rewrite uncleRewardsLoop_lookup by apply length_replicate.
    rewrite decide_True, Nat.sub_0_r by lia.
    fold uncles uncleRewards. now rewrite Hu, Hr.
  - intros i uncle Hu Hr.
    rewrite uncleRewardsLoop_lookup by apply length_replicate.
    rewrite decide_True, Nat.sub_0_r by lia.
    fold uncles uncleRewards. rewrite Hu, Hr.
    apply lookup_ge_None_2. rewrite length_replicate.
    now apply lookup_ge_None.
  - rewrite uncleRewardsLoop_closed_form. fold uncles uncleRewards.
    rewrite omap_app.
    replace (omap id (replicate _ None)) with (@nil trace).
    + rewrite app_nil_r. generalize (zip_with (uncleRecord block) uncles uncleRewards).
      intros l. induction l as [|x l IH]; [reflexivity|]. cbn. now rewrite IH.
    + generalize (length uncleRewards - length uncles). intros n.
      induction n as [|n IH]; [reflexivity|]. cbn. exact IH.
Qed.

End RewardSynthesis.

Lemma reward_records_shape_witness :
  ∃ tr : ParityTrace (iface string),
    traceBlockUncleRewards (H := Demo.exact) Demo.node Demo.block100 None
      = Ok [Some (rewardRecord (H := Demo.exact) "uncle" 501%Z (Some 1500%Z) Demo.block100);
            Some tr]
    ∧ Type_ tr = "reward" ∧ Subtraces tr = 0%Z ∧ TraceAddress tr = Some []
    ∧ TransactionHash tr = None ∧ TransactionPosition tr = None
    ∧ Action tr = {| Value := Some 1750%Z; Author := Some 502%Z; RewardType := "uncle" |}.
Proof.
  destruct (@reward_records_shape Demo.exact Demo.node Demo.block100 None)
    as (_ & trs & Htrs & Hshape).
  injection Htrs as <-.
  eexists. split; [reflexivity|].
  destruct (Hshape 1%nat _ eq_refl) as (Hty & Hsub & Hta & Hth & Htp & u & r & Hu & Hr & Hact).
  injection Hu as <-. injection Hr as <-.
  repeat split; assumption.
Defined.

Lemma traceBlockUncleRewards_spec_witness :
  traceBlockUncleRewards (H := Demo.short) Demo.node Demo.block100 None
    = Ok [Some (rewardRecord (H := Demo.short) "uncle" 501%Z (Some 1500%Z) Demo.block100)]
  ∧ traceBlockUncleRewards (H := Demo.exact) Demo.node Demo.block100 None
    = Ok [Some (rewardRecord (H := Demo.exact) "uncle" 501%Z (Some 1500%Z) Demo.block100);
          Some (rewardRecord (H := Demo.exact) "uncle" 502%Z (Some 1750%Z) Demo.block100)].
Proof.
  split.
  - destruct (@traceBlockUncleRewards_spec Demo.short Demo.node Demo.block100 None)
      as (trs & Htrs & Hhas & Hnone & _).
    rewrite Htrs. f_equal.
    destruct (Hhas 0%nat Demo.uncleA (Some 1500%Z) eq_refl eq_refl) as (tr & H0 & -> & _).
    pose proof (Hnone 1%nat Demo.uncleB eq_refl eq_refl) as H1.
    destruct trs as [|x [|y trs]]; [discriminate H0 | | discriminate H1].
    injection H0 as ->. reflexivity.
  - destruct (@traceBlockUncleRewards_spec Demo.exact Demo.node Demo.block100 None)
      as (trs & Htrs & Hhas & _ & _).
    rewrite Htrs. f_equal.
    destruct (Hhas 0%nat Demo.uncleA (Some 1500%Z) eq_refl eq_refl) as (tr0 & H0 & -> & _).
    destruct (Hhas 1%nat Demo.uncleB (Some 1750%Z) eq_refl eq_refl) as (tr1 & H1 & -> & _).
    injection Htrs as <-. reflexivity.
Defined.

(** ** The block aggregator *)

Section BlockAggregator.
Context `{Collaborators}.

Local Abbreviation value := (iface Dyn).
Local Abbreviation trace := (ParityTrace (iface Dyn)).
Local Abbreviation config_ptr := (option (TraceConfig Extra)).
Local Abbreviation uncleRecord block :=
  (fun (u : types.Header) (r : option Z) =>
     rewardRecord "uncle" (types.Coinbase u) r block).

(** The record the specification asks for the block reward. *)
Local Abbreviation blockRecord api block :=
  (rewardRecord "block" (types.Block_Coinbase block) (rewardsOf api block).1 block).

Lemma appendTraceResults_decoded (txs : list (option (txTraceResult Dyn)))
    (decoded : list (list value)) :
  Forall2 decodesTo txs decoded →
  ∀ acc, appendTraceResults txs acc = Ok (acc ++ concat decoded).
Proof.
  induction 1 as [|tx tmp txs decoded (r & raw & -> & Hraw & Htmp) _ IH]; intros acc; cbn.
  - now rewrite app_nil_r.
  - rewrite Hraw, Htmp. cbn. rewrite IH. now rewrite app_assoc.
Qed.

Lemma appendTraceResults_Ok_inv (txs : list (option (txTraceResult Dyn))) :
  ∀ acc rs, appendTraceResults txs acc = Ok rs →
    ∃ decoded, Forall2 decodesTo txs decoded ∧ rs = acc ++ concat decoded.
Proof.
  induction txs as [|tx txs IH]; intros acc rs Hrs; cbn in Hrs.
  - injection Hrs as <-. exists []. split; [constructor | now rewrite app_nil_r].
  - destruct tx as [r|]; [|discriminate].
    destruct (tx_Result r) as [|raw| | |] eqn:Hraw; try discriminate.
    destruct (json_Unmarshal raw) as [tmp|e|] eqn:Htmp; try discriminate.
    cbn in Hrs. apply IH in Hrs as (decoded & Hdec & ->).
    exists (tmp :: decoded). split.
    + constructor; [|assumption]. now exists r, raw.
    + cbn. now rewrite app_assoc.
Qed.

(** A payload that does not decode stops the loop with the decoder's error,
    whatever was decoded before it and whatever follows it. *)
Lemma appendTraceResults_decode_error (pre post : list (option (txTraceResult Dyn)))
    (decoded : list (list value)) (r : txTraceResult Dyn) (raw : string) (e : error) :
  Forall2 decodesTo pre decoded →
  tx_Result r = IRawMessage raw → json_Unmarshal raw = Err e →
  ∀ acc, appendTraceResults (pre ++ Some r :: post) acc = Err e.
Proof.
  intros Hpre Hraw He.
  induction Hpre as [|tx tmp pre decoded (r' & raw' & -> & Hraw' & Htmp) _ IH];
    intros acc; cbn.
  - now rewrite Hraw, He.
  - rewrite Hraw', Htmp. cbn. apply IH.
Qed.

(** A result that is nil, or whose payload is not a raw message, makes the
    type assertion of the loop panic: no array and no error are returned. *)
Lemma appendTraceResults_foreign_payload (pre post : list (option (txTraceResult Dyn)))
    (decoded : list (list value)) (tx : option (txTraceResult Dyn)) :
  Forall2 decodesTo pre decoded →
  (tx = None ∨ ∃ r, tx = Some r ∧ ∀ raw, tx_Result r ≠ IRawMessage raw) →
  ∀ acc, appendTraceResults (pre ++ tx :: post) acc = Panic.
Proof.
  intros Hpre Htx.
  induction Hpre as [|tx' tmp pre decoded (r' & raw' & -> & Hraw' & Htmp) _ IH];
    intros acc; cbn.
  - destruct Htx as [->|(r & -> & Hr)]; [reflexivity|].
    destruct (tx_Result r) as [|raw| | |]; try reflexivity.
    now destruct (Hr raw).
  - rewrite Hraw', Htmp. cbn. apply IH.
Qed.

Lemma traceBlockReward_Ok (api : PrivateTraceAPI ChainConfig) (block : types.Block)
    (config : config_ptr) :
  traceBlockReward (eth api) block config = Ok (Some (blockRecord api block)).
Proof. reflexivity. Qed.

(** What [Block] returns when it returns a result. *)
Lemma Block_Ok_inv (api : PrivateTraceAPI ChainConfig) (number : Z) (config : config_ptr)
    (rs : list value) :
  Block api number config = Ok rs →
  ∃ block txs decoded trs,
    fetchBlock api number = Some block
    ∧ traceBlockByNumber (eth api) number (setTraceConfigDefaultTracer config) = Ok txs
    ∧ Forall2 decodesTo txs decoded
    ∧ traceBlockUncleRewards (eth api) block (setTraceConfigDefaultTracer config) = Ok trs
    ∧ rs = concat decoded ++ [IParityTrace (Some (blockRecord api block))]
             ++ (IParityTrace <$> trs).
Proof.
  unfold Block, BlockWith. intros Hrs.
  destruct (fetchBlock api number) as [block|]; [|discriminate].
  destruct (traceBlockByNumber _ _ _) as [txs|e|]; try discriminate.
  cbn in Hrs.
  destruct (appendTraceResults txs []) as [flat|e|] eqn:Hflat; try discriminate.
  apply appendTraceResults_Ok_inv in Hflat as (decoded & Hdec & ->).
  cbn in Hrs. injection Hrs as <-.
  exists block, txs, decoded. eexists. repeat split; try assumption.
  now rewrite <- app_assoc.
Qed.

(** What [Block] returns when all its steps succeed. *)
Lemma Block_Ok (api : PrivateTraceAPI ChainConfig) (number : Z) (config : config_ptr)
    (block : types.Block) (txs : list (option (txTraceResult Dyn)))
    (decoded : list (list value)) :
  fetchBlock api number = Some block →
  traceBlockByNumber (eth api) number (setTraceConfigDefaultTracer config) = Ok txs →
  Forall2 decodesTo txs decoded →
  Block api number config
    = Ok (concat decoded ++ [IParityTrace (Some (blockRecord api block))]
            ++ (IParityTrace <$>
                  (Some <$> zip_with (uncleRecord block) (types.Block_Uncles block)
                              (rewardsOf api block).2)
                  ++ replicate (length (rewardsOf api block).2
                                - length (types.Block_Uncles block)) None)).
Proof.
  intros Hblock Htxs Hdec. unfold Block, BlockWith.
  rewrite Hblock, Htxs. cbn.
  rewrite (appendTraceResults_decoded _ _ Hdec). cbn.
  rewrite uncleRewardsLoop_closed_form. now rewrite <- app_assoc.
Qed.

Lemma uncles_matched_length (uncles : list types.Header) (uncleRewards : list (option Z)) :
  (∀ (i : nat) (uncle : types.Header),
     uncles !! i = Some uncle → is_Some (uncleRewards !! i)) →
  length uncles ≤ length uncleRewards.
Proof.
  intros Hall. destruct (decide (length uncles = 0)) as [->|Hne]; [lia|].
  destruct (lookup_lt_is_Some_2 uncles (length uncles - 1) ltac:(lia)) as [u Hu].
  apply Hall, lookup_lt_is_Some in Hu. lia.
Qed.

(** The array of [Block] for any reward list that has an entry for every
    uncle: the decoded entries of all transactions in block order,
    flattened; then the block-reward record; then the uncle-reward records
    in uncle order; then one nil entry for every reward entry beyond the
    last uncle. *)
Lemma Block_records (api : PrivateTraceAPI ChainConfig) (number : Z) (config : config_ptr)
    (block : types.Block) (txs : list (option (txTraceResult Dyn)))
    (decoded : list (list value)) :
  let uncles := types.Block_Uncles block in
  let uncleRewards := (rewardsOf api block).2 in
  let flat := concat decoded in
  fetchBlock api number = Some block →
  traceBlockByNumber (eth api) number (setTraceConfigDefaultTracer config) = Ok txs →
  Forall2 decodesTo txs decoded →
  (∀ (i : nat) (uncle : types.Header),
     uncles !! i = Some uncle → is_Some (uncleRewards !! i)) →
  ∃ rs : list value,
    Block api number config = Ok rs
    ∧ rs = flat
           ++ [IParityTrace (Some (blockRecord api block))]
           ++ ((fun tr => IParityTrace (Some tr))
                 <$> zip_with (uncleRecord block) uncles uncleRewards)
           ++ replicate (length uncleRewards - length uncles) (IParityTrace None)
    ∧ length rs = length flat + 1 + length uncleRewards
    ∧ rs !! length flat = Some (IParityTrace (Some (blockRecord api block)))
    ∧ (length uncleRewards = length uncles →
       length rs = length flat + 1 + length uncles
       ∧ rs = flat
              ++ [IParityTrace (Some (blockRecord api block))]
              ++ ((fun tr => IParityTrace (Some tr))
                    <$> zip_with (uncleRecord block) uncles uncleRewards)).
Proof.
  intros uncles uncleRewards flat Hblock Htxs Hdec Hall.
  apply uncles_matched_length in Hall.
  eexists. split; [exact (Block_Ok _ _ _ _ _ _ Hblock Htxs Hdec)|].
  fold uncles uncleRewards flat.
  rewrite fmap_app, fmap_replicate, <- list_fmap_compose.
  split; [reflexivity|].
  split; [|split].
  - rewrite !length_app, length_fmap, length_zip_with, length_replicate. cbn. lia.
  - rewrite lookup_app_r by lia. now rewrite Nat.sub_diag.
  - intros Heq. rewrite Heq, Nat.sub_diag. cbn. rewrite app_nil_r.
    split; [|reflexivity].
    rewrite length_app. cbn. rewrite length_fmap, length_zip_with. lia.
Qed.

(** C1. When the block is found, the tracer returns one result per
    transaction, every result decodes as a sequence, and the consensus
    returns one reward entry per uncle, [Block] returns exactly
    N_flat + 1 + U records: the decoded entries of all transactions in block
    order, flattened; the block-reward record at position N_flat; and the
    U uncle-reward records in uncle order, the record of uncle [i] at
    position N_flat + 1 + i. *)
Theorem Block_records_one_reward_per_uncle
    (api : PrivateTraceAPI ChainConfig) (number : Z) (config : config_ptr)
    (block : types.Block) (txs : list (option (txTraceResult Dyn)))
    (decoded : list (list value)) :
  let uncles := types.Block_Uncles block in
  let uncleRewards := (rewardsOf api block).2 in
  let flat := concat decoded in
  fetchBlock api number = Some block →
  traceBlockByNumber (eth api) number (setTraceConfigDefaultTracer config) = Ok txs →
  Forall2 decodesTo txs decoded →
  length uncleRewards = length uncles →
  ∃ rs : list value,
    Block api number config = Ok rs
    ∧ length rs = length flat + 1 + length uncles
    ∧ rs = flat
           ++ [IParityTrace (Some (blockRecord api block))]
           ++ ((fun tr => IParityTrace (Some tr))
                 <$> zip_with (uncleRecord block) uncles uncleRewards)
    ∧ rs !! length flat = Some (IParityTrace (Some (blockRecord api block)))
    ∧ ∀ (i : nat) (uncle : types.Header), uncles !! i = Some uncle →
        ∃ reward : option Z,
          uncleRewards !! i = Some reward
          ∧ rs !! (length flat + 1 + i)
            = Some (IParityTrace (Some (uncleRecord block uncle reward))).
Proof.
  intros uncles uncleRewards flat Hblock Htxs Hdec Hlen.
  eexists. split; [exact (Block_Ok _ _ _ _ _ _ Hblock Htxs Hdec)|].
  fold uncles uncleRewards flat.
  rewrite Hlen, Nat.sub_diag. cbn [replicate]. rewrite app_nil_r, <- list_fmap_compose.
  split; [|split; [reflexivity|split]].
  - rewrite length_app. cbn. rewrite length_fmap, length_zip_with. lia.
  - rewrite lookup_app_r by lia. now rewrite Nat.sub_diag.
  - intros i uncle Hu.
    destruct (lookup_lt_is_Some_2 uncleRewards i) as [reward Hr].
    { apply lookup_lt_Some in Hu. fold uncles in Hu. lia. }
    exists reward. split; [exact Hr|].
    rewrite lookup_app_r by lia.
    replace (length flat + 1 + i - length flat) with (S i) by lia.
    change ([?x] ++ ?l) with (x :: l). rewrite lookup_cons_ne_0 by lia. cbn [pred].
    rewrite list_lookup_fmap, lookup_zip_with, Hu. cbn. now rewrite Hr.
Qed.

(** The failures [Block] handles. It returns an error, and no array, when
    the block is not found, when the transaction tracer fails, when one of
    the two reward synthesizers it calls fails, or when the raw payload of a
    transaction does not decode as a sequence, however many payloads were
    decoded before it. When it returns an array, every step has succeeded
    and the array is complete. *)
Theorem BlockWith_aborts_on_failure
    (rewardOf : Ethereum ChainConfig → types.Block → config_ptr → outcome (option trace))
    (uncleRewardsOf :
       Ethereum ChainConfig → types.Block → config_ptr → outcome (list (option trace)))
    (api : PrivateTraceAPI ChainConfig) (number : Z) (config : config_ptr) :
  let cfg := setTraceConfigDefaultTracer config in
  let run := BlockWith rewardOf uncleRewardsOf api number config in
  (fetchBlock api number = None →
   run = Err ("block #" +:+ fmt_d number +:+ " not found"))
  ∧ (∀ block e,
       fetchBlock api number = Some block →
       traceBlockByNumber (eth api) number cfg = Err e →
       run = Err e)
  ∧ (∀ block txs e,
       fetchBlock api number = Some block →
       traceBlockByNumber (eth api) number cfg = Ok txs →
       rewardOf (eth api) block cfg = Err e →
       run = Err e)
  ∧ (∀ block txs tr e,
       fetchBlock api number = Some block →
       traceBlockByNumber (eth api) number cfg = Ok txs →
       rewardOf (eth api) block cfg = Ok tr →
       uncleRewardsOf (eth api) block cfg = Err e →
       run = Err e)
  ∧ (∀ block pre post decoded r raw tr trs e,
       fetchBlock api number = Some block →
       traceBlockByNumber (eth api) number cfg = Ok (pre ++ Some r :: post) →
       rewardOf (eth api) block cfg = Ok tr →
       uncleRewardsOf (eth api) block cfg = Ok trs →
       Forall2 decodesTo pre decoded →
       tx_Result r = IRawMessage raw → json_Unmarshal raw = Err e →
       run = Err e)
  ∧ (∀ rs, run = Ok rs →
       ∃ block txs decoded tr trs,
         fetchBlock api number = Some block
         ∧ traceBlockByNumber (eth api) number cfg = Ok txs
         ∧ rewardOf (eth api) block cfg = Ok tr
         ∧ uncleRewardsOf (eth api) block cfg = Ok trs
         ∧ Forall2 decodesTo txs decoded
         ∧ rs = concat decoded ++ [IParityTrace tr] ++ (IParityTrace <$> trs)).
Proof.
  intros cfg run. unfold run, BlockWith. fold cfg.
  split; [|split; [|split; [|split; [|split]]]].
  - now intros ->.
  - now intros block e -> ->.
  - intros block txs e -> -> Hr. cbn. now rewrite Hr.
  - intros block txs tr e -> -> Hr Hu. cbn. rewrite Hr. cbn. now rewrite Hu.
  - intros block pre post decoded r raw tr trs e -> -> Hr Hu Hpre Hraw He.
    cbn. rewrite Hr. cbn. rewrite Hu. cbn.
    now rewrite (appendTraceResults_decode_error _ _ _ _ _ _ Hpre Hraw He).
  - intros rs Hrs.
    destruct (fetchBlock api number) as [block|]; [|discriminate].
    destruct (traceBlockByNumber (eth api) number cfg) as [txs|e|]; try discriminate.
    cbn in Hrs.
    destruct (rewardOf (eth api) block cfg) as [tr|e|] eqn:Hr; try discriminate.
    cbn in Hrs.
    destruct (uncleRewardsOf (eth api) block cfg) as [trs|e|] eqn:Hu; try discriminate.
    cbn in Hrs.
    destruct (appendTraceResults txs []) as [flat|e|] eqn:Hflat; try discriminate.
    apply appendTraceResults_Ok_inv in Hflat as (decoded & Hdec & ->).
    cbn in Hrs. injection Hrs as <-.
    exists block, txs, decoded, tr, trs.
    split_and!; try done.
    now rewrite <- app_assoc.
Qed.

(** C10. The slice [traceBlockUncleRewards] returns has one entry per
    consensus uncle reward, whatever the number of uncles; its entries at
    the indices from the number of uncles on are nil; and when [Block]
    returns an array for that block, the array ends with the entries of the
    slice, the nil ones included. *)
Theorem traceBlockUncleRewards_sized_by_rewards
    (api : PrivateTraceAPI ChainConfig) (block : types.Block) (config : config_ptr) :
  let uncles := types.Block_Uncles block in
  let uncleRewards := (rewardsOf api block).2 in
  ∃ trs : list (option trace),
    traceBlockUncleRewards (eth api) block config = Ok trs
    ∧ length trs = length uncleRewards
    ∧ (∀ i : nat, length uncles ≤ i < length uncleRewards → trs !! i = Some None)
    ∧ (∀ (number : Z) (cfg : config_ptr) (rs : list value),
         fetchBlock api number = Some block →
         Block api number cfg = Ok rs →
         ∃ flat : list value,
           rs = flat ++ [IParityTrace (Some (blockRecord api block))]
                  ++ (IParityTrace <$> trs)
           ∧ length rs = length flat + 1 + length uncleRewards
           ∧ ∀ i : nat, length uncles ≤ i < length uncleRewards →
               rs !! (length flat + 1 + i) = Some (IParityTrace None)).
Proof.
  intros uncles uncleRewards.
  eexists. split; [apply traceBlockUncleRewards_closed_form|].
  fold (rewardsOf api block). fold uncles uncleRewards.
  assert (Hnil : ∀ i : nat, length uncles ≤ i < length uncleRewards →
            ((Some <$> zip_with (uncleRecord block) uncles uncleRewards)
               ++ replicate (length uncleRewards - length uncles) None) !! i
            = Some (@None trace)).
  { intros i Hi.
    rewrite lookup_app_r by (rewrite length_fmap, length_zip_with; lia).
    rewrite length_fmap, length_zip_with.
    apply lookup_replicate_2. lia. }
  assert (Hlen : length ((Some <$> zip_with (uncleRecord block) uncles uncleRewards)
                   ++ replicate (length uncleRewards - length uncles) (@None trace))
                 = length uncleRewards).
  { rewrite length_app, length_fmap, length_zip_with, length_replicate. lia. }
  split; [exact Hlen|]. split; [exact Hnil|].
  intros number cfg rs Hblock Hrs.
  apply Block_Ok_inv in Hrs as (block' & txs & decoded & trs & Hblock' & _ & _ & Htrs & ->).
  rewrite Hblock in Hblock'. injection Hblock' as <-.
  rewrite traceBlockUncleRewards_closed_form in Htrs. injection Htrs as <-.
  fold (rewardsOf api block). fold uncles uncleRewards.
  exists (concat decoded). split; [reflexivity|]. split.
  - rewrite !length_app, length_fmap, Hlen. cbn. lia.
  - intros i Hi.
    rewrite lookup_app_r by lia.
    replace (length (concat decoded) + 1 + i - length (concat decoded)) with (S i) by lia.
    change ([?x] ++ ?l) with (x :: l). rewrite lookup_cons_ne_0 by lia. cbn [pred].
    rewrite list_lookup_fmap. now rewrite Hnil.
Qed.

End BlockAggregator.

Lemma Demo_decoded_100 (rewards : unit → types.Header → list types.Header → option Z * list (option Z)) :
  Forall2 (decodesTo (H := Demo.collaboratorsWith rewards))
    [Demo.payload "[a]"; Demo.payload "[b,c]"]
    [[IOther "a"]; [IOther "b"; IOther "c"]].
Proof.
  repeat constructor; eexists _, _; repeat split.
Qed.

Lemma Demo_block100_matched (extra : list (option Z)) :
  ∀ (i : nat) (uncle : types.Header),
    types.Block_Uncles Demo.block100 !! i = Some uncle →
    is_Some (([Some 1500%Z; Some 1750%Z] ++ extra) !! i).
Proof.
  intros [|[|i]] uncle Hi; cbn; eauto. discriminate Hi.
Qed.

Lemma Block_records_witness :
  let reward rewards rewardType author value :=
    @IParityTrace string
      (Some (rewardRecord (H := Demo.collaboratorsWith rewards)
               rewardType author (Some value) Demo.block100)) in
  Block (H := Demo.exact) Demo.api 100 None
    = Ok [IOther "a"; IOther "b"; IOther "c";
          reward Demo.exactRewards "block" 500%Z 2124%Z;
          reward Demo.exactRewards "uncle" 501%Z 1500%Z;
          reward Demo.exactRewards "uncle" 502%Z 1750%Z]
  ∧ Block (H := Demo.long) Demo.api 100 None
    = Ok [IOther "a"; IOther "b"; IOther "c";
          reward Demo.longRewards "block" 500%Z 2124%Z;
          reward Demo.longRewards "uncle" 501%Z 1500%Z;
          reward Demo.longRewards "uncle" 502%Z 1750%Z;
          IParityTrace None].
Proof.
  intros reward. split.
  - destruct (@Block_records Demo.exact Demo.api 100 None Demo.block100 _ _
                eq_refl eq_refl (Demo_decoded_100 _) (Demo_block100_matched []))
      as (rs & -> & -> & _).
    reflexivity.
  - destruct (@Block_records Demo.long Demo.api 100 None Demo.block100 _ _
                eq_refl eq_refl (Demo_decoded_100 _) (Demo_block100_matched [Some 0%Z]))
      as (rs & -> & -> & _).
    reflexivity.
Defined.

Lemma Block_records_one_reward_per_uncle_witness :
  Block (H := Sample.collaborators) Demo.api 100 None
    = Ok [IOther "1"; IOther "2"; IOther "3";
          IParityTrace (Some (rewardRecord (H := Sample.collaborators) "block" 500%Z
                                (Some 2124%Z) Demo.block100));
          IParityTrace (Some (rewardRecord (H := Sample.collaborators) "uncle" 501%Z
                                (Some 1500%Z) Demo.block100));
          IParityTrace (Some (rewardRecord (H := Sample.collaborators) "uncle" 502%Z
                                (Some 1750%Z) Demo.block100))].
Proof.
  assert (Hdec : Forall2 (decodesTo (H := Sample.collaborators))
                   [Demo.payload "[1]"; Demo.payload "[2,3]"]
                   [[IOther "1"]; [IOther "2"; IOther "3"]]).
  { repeat constructor; eexists _, _; repeat split. }
  destruct (@Block_records_one_reward_per_uncle Sample.collaborators Demo.api 100 None
              Demo.block100 _ _ eq_refl eq_refl Hdec eq_refl)
    as (rs & -> & _ & -> & _).
  reflexivity.
Defined.

(** C9, failing input. The tracer of block 11 reports three transactions,
    the second one failed: an error message and no payload. [Block] then
    panics at the type assertion of its loop. It returns no array, and it
    returns no error either, whereas a payload that is there and does not
    decode makes it return the decoder's error. *)
Theorem Block_failed_transaction_panics :
  fetchBlock (H := Sample.collaborators) Demo.api 11 = Some (Demo.plainBlock 11)
  ∧ traceBlockByNumber (Collaborators := Sample.collaborators) Demo.node 11
      (setTraceConfigDefaultTracer (H := Sample.collaborators) None)
    = Ok [Demo.payload "[1]";
          Some {| tx_Result := INil; tx_Error := "execution reverted" |};
          Demo.payload "[2,3]"]
  ∧ Block (H := Sample.collaborators) Demo.api 11 None = Panic
  ∧ (∀ e : error, Block (H := Sample.collaborators) Demo.api 11 None ≠ Err e)
  ∧ (∀ rs, Block (H := Sample.collaborators) Demo.api 11 None ≠ Ok rs).
Proof.
  assert (Hpanic : Block (H := Sample.collaborators) Demo.api 11 None = Panic)
    by reflexivity.
  split; [reflexivity|]. split; [reflexivity|]. split; [exact Hpanic|].
  split; intros x Hx; rewrite Hpanic in Hx; discriminate Hx.
Qed.

Lemma BlockWith_aborts_on_failure_witness :
  Block (H := Demo.exact) Demo.api 5 None = Err "block #5 not found"
  ∧ Block (H := Demo.exact) Demo.api (-2) None = Err "block #-2 not found"
  ∧ Block (H := Demo.exact) Demo.api 12 None = Err "tracing failed"
  ∧ BlockWith (H := Demo.exact) (fun _ _ _ => Err "no reward") traceBlockUncleRewards
      Demo.api 100 None = Err "no reward"
  ∧ BlockWith (H := Demo.exact) traceBlockReward (fun _ _ _ => Err "no uncle rewards")
      Demo.api 100 None = Err "no uncle rewards"
  ∧ Block (H := Demo.exact) Demo.api 11 None
    = Err "json: cannot unmarshal object into Go value of type []interface {}"
  ∧ ∃ txs decoded,
      traceBlockByNumber (Collaborators := Demo.exact) Demo.node 10 
        (setTraceConfigDefaultTracer (H := Demo.exact) None) = Ok txs
      ∧ Forall2 (decodesTo (H := Demo.exact)) txs decoded.
Proof.
  split; [|split; [|split; [|split; [|split; [|split]]]]].
  - apply (@BlockWith_aborts_on_failure Demo.exact traceBlockReward traceBlockUncleRewards
             Demo.api 5 None).
    reflexivity.
  - apply (@BlockWith_aborts_on_failure Demo.exact traceBlockReward traceBlockUncleRewards
             Demo.api (-2) None).
    reflexivity.
  - apply (proj1 (proj2 (@BlockWith_aborts_on_failure Demo.exact
             traceBlockReward traceBlockUncleRewards Demo.api 12 None))
             (Demo.plainBlock 12));
      reflexivity.
  - apply (proj1 (proj2 (proj2 (@BlockWith_aborts_on_failure Demo.exact
             (fun _ _ _ => Err "no reward") traceBlockUncleRewards Demo.api 100 None)))
             Demo.block100 [Demo.payload "[a]"; Demo.payload "[b,c]"]);
      reflexivity.
  - apply (proj1 (proj2 (proj2 (proj2 (@BlockWith_aborts_on_failure Demo.exact
             traceBlockReward (fun _ _ _ => Err "no uncle rewards") Demo.api 100 None))))
             Demo.block100 [Demo.payload "[a]"; Demo.payload "[b,c]"]
             (Some (rewardRecord (H := Demo.exact) "block" 500%Z (Some 2124%Z) Demo.block100)));
      reflexivity.
  - apply (proj1 (proj2 (proj2 (proj2 (proj2 (@BlockWith_aborts_on_failure Demo.exact
             traceBlockReward traceBlockUncleRewards Demo.api 11 None)))))
             (Demo.plainBlock 11) [Demo.payload "[a]"] [Demo.payload "[b,c]"]
             [[IOther "a"]] {| tx_Result := IRawMessage "{}"; tx_Error := "" |} "{}"
             (Some (rewardRecord (H := Demo.exact) "block" 411%Z (Some 2000%Z)
                      (Demo.plainBlock 11)))
             []);
      try reflexivity.
    repeat constructor. eexists _, _; repeat split.
  - destruct (proj2 (proj2 (proj2 (proj2 (proj2 (@BlockWith_aborts_on_failure Demo.exact
                traceBlockReward traceBlockUncleRewards Demo.api 10 None)))))
                _ eq_refl)
      as (block & txs & decoded & tr & trs & _ & Htxs & _ & _ & Hdec & _).
    exists txs, decoded. split; [exact Htxs | exact Hdec].
Defined.

Lemma traceBlockUncleRewards_sized_by_rewards_witness :
  ∃ (trs : list (option (ParityTrace (iface string)))) (rs flat : list (iface string)),
    traceBlockUncleRewards (H := Demo.long) Demo.node Demo.block100 None = Ok trs
    ∧ length (types.Block_Uncles Demo.block100) = 2
    ∧ length trs = 3
    ∧ trs !! 2 = Some None
    ∧ Block (H := Demo.long) Demo.api 100 None = Ok rs
    ∧ length rs = length flat + 1 + 3
    ∧ rs !! (length flat + 1 + 2) = Some (IParityTrace None).
Proof.
  destruct (@traceBlockUncleRewards_sized_by_rewards Demo.long Demo.api Demo.block100 None)
    as (trs & Htrs & Hlen & Hnil & HBlock).
  destruct (HBlock 100%Z None _ eq_refl eq_refl) as (flat & _ & Hcount & Htail).
  exists trs. eexists. exists flat.
  split; [exact Htrs|]. split; [reflexivity|]. split; [exact Hlen|].
  split; [apply Hnil; cbn; lia|].
  split; [reflexivity|]. split; [exact Hcount|].
  apply Htail. cbn. lia.
Defined.

(** ** The range validator *)

Section RangeValidator.
Context `{Collaborators}.

Lemma big_Cmp_ge_0 (x y : Z) : (big_Cmp x y >= 0)%Z ↔ ¬ (x < y)%Z.
Proof.
  unfold big_Cmp. destruct (Z.compare_spec x y); lia.
Qed.

(** C6. [Filter] fails with "starting block #N not found" when no block is
    stored at [fromBlock] = N; with "end block #M not found" when a block is
    stored at [fromBlock] and none at [toBlock] = M; with "end block (#M)
    needs to come after start block (#N)" when both are stored and the
    number of the end block is not strictly greater than the number of the
    start block. Whenever one of the two lookups misses, the error names a
    block number at which nothing is stored. When the number of the end
    block is strictly greater, [Filter] hands the two blocks to the chain
    tracer and returns what the tracer returns. *)
Theorem Filter_validation (api : PrivateTraceAPI ChainConfig) (args : TraceFilterArgs)
    (config : option (TraceConfig Extra)) :
  let start := FromBlock args in
  let end_ := ToBlock args in
  let stored := GetBlockByNumber (blockchain (eth api)) in
  (stored start = None →
   Filter api args config = Err ("starting block #" +:+ fmt_d start +:+ " not found"))
  ∧ (∀ from : types.Block,
       stored start = Some from → stored end_ = None →
       Filter api args config = Err ("end block #" +:+ fmt_d end_ +:+ " not found"))
  ∧ (stored start = None ∨ stored end_ = None →
     ∃ missing : Z,
       stored missing = None
       ∧ (Filter api args config
            = Err ("starting block #" +:+ fmt_d missing +:+ " not found")
          ∨ Filter api args config
            = Err ("end block #" +:+ fmt_d missing +:+ " not found")))
  ∧ (∀ from to : types.Block,
       stored start = Some from → stored end_ = Some to →
       ¬ (types.Block_Number from < types.Block_Number to)%Z →
       Filter api args config
         = Err ("end block (#" +:+ fmt_d end_ +:+
                ") needs to come after start block (#" +:+ fmt_d start +:+ ")"))
  ∧ (∀ from to : types.Block,
       stored start = Some from → stored end_ = Some to →
       (types.Block_Number from < types.Block_Number to)%Z →
       Filter api args config
         = traceChain (eth api) from to (setTraceConfigDefaultTracer config)).
Proof.
  intros start end_ stored. unfold Filter. fold start end_ stored.
  split; [|split; [|split; [|split]]].
  - now intros ->.
  - now intros from -> ->.
  - intros Hmiss. destruct (stored start) as [from|] eqn:Hfrom.
    + destruct Hmiss as [?|Hto]; [discriminate|].
      exists end_. rewrite Hto. split; [reflexivity | now right].
    + exists start. split; [exact Hfrom | now left].
  - intros from to -> -> Hnot. apply big_Cmp_ge_0 in Hnot.
    now rewrite decide_True.
  - intros from to -> -> Hlt.
    rewrite decide_False; [reflexivity|].
    rewrite big_Cmp_ge_0. lia.
Qed.

End RangeValidator.

Lemma Filter_validation_witness :
  Filter (H := Demo.exact) Demo.api (Demo.range 10 10) None
    = Err "end block (#10) needs to come after start block (#10)"
  ∧ Filter (H := Demo.exact) Demo.api (Demo.range 10 9) None
    = Err "end block (#9) needs to come after start block (#10)"
  ∧ Filter (H := Demo.exact) Demo.api (Demo.range 10 11) None = Ok (Some (10, 11)%Z)
  ∧ Filter (H := Demo.exact) Demo.api (Demo.range 999999 11) None
    = Err "starting block #999999 not found"
  ∧ Filter (H := Demo.exact) Demo.api (Demo.range 10 999999) None
    = Err "end block #999999 not found".
Proof.
  split; [|split; [|split; [|split]]].
  - apply (proj1 (proj2 (proj2 (proj2
             (@Filter_validation Demo.exact Demo.api (Demo.range 10 10) None))))
             (Demo.plainBlock 10) (Demo.plainBlock 10)); [reflexivity | reflexivity |].
    cbn. lia.
  - apply (proj1 (proj2 (proj2 (proj2
             (@Filter_validation Demo.exact Demo.api (Demo.range 10 9) None))))
             (Demo.plainBlock 10) (Demo.plainBlock 9)); [reflexivity | reflexivity |].
    cbn. lia.
  - apply (proj2 (proj2 (proj2 (proj2
             (@Filter_validation Demo.exact Demo.api (Demo.range 10 11) None))))
             (Demo.plainBlock 10) (Demo.plainBlock 11)); [reflexivity | reflexivity |].
    cbn. lia.
  - apply (proj1 (@Filter_validation Demo.exact Demo.api (Demo.range 999999 11) None)).
    reflexivity.
  - apply (proj1 (proj2 (@Filter_validation Demo.exact Demo.api (Demo.range 10 999999) None))
             (Demo.plainBlock 10)); reflexivity.
Defined.

(** ** Further properties of the handlers *)

Section HandlersAndConfiguration.
Context `{Collaborators}.

Lemma setTraceConfigDefaultTracer_twice (config : option (TraceConfig Extra)) :
  setTraceConfigDefaultTracer (setTraceConfigDefaultTracer config)
    = setTraceConfigDefaultTracer config.
Proof.
  destruct config as [[[t|] n o]|]; reflexivity.
Qed.

(** X1. No handler distinguishes a configuration from its resolved form:
    passing [setTraceConfigDefaultTracer config] instead of [config] to
    [Block], [Transaction], [Filter], [Call] or [CallMany] gives the same
    outcome. *)
Theorem handlers_resolve_once
    (api : PrivateTraceAPI ChainConfig) (number : Z) (hash : Hash)
    (range : TraceFilterArgs) (args : CallArgs) (txs : list CallArgs)
    (blockNrOrHash : BlockNumberOrHash) (config : option (TraceConfig Extra)) :
  Block api number (setTraceConfigDefaultTracer config) = Block api number config
  ∧ Transaction api hash (setTraceConfigDefaultTracer config) = Transaction api hash config
  ∧ Filter api range (setTraceConfigDefaultTracer config) = Filter api range config
  ∧ Call api args blockNrOrHash (setTraceConfigDefaultTracer config)
    = Call api args blockNrOrHash config
  ∧ CallMany api txs blockNrOrHash (setTraceConfigDefaultTracer config)
    = CallMany api txs blockNrOrHash config.
Proof.
  unfold Block, BlockWith, Transaction, Filter, Call, CallMany.
  rewrite !setTraceConfigDefaultTracer_twice. repeat split.
Qed.

(** X2. [CallMany] returns exactly the outcome of the batch tracer run
    under the resolved configuration. [Call] returns the error of the call
    tracer unchanged when the tracer fails, panics when it panics, and
    returns a result whenever the tracer returns one. *)
Theorem Call_outcomes
    (api : PrivateTraceAPI ChainConfig) (args : CallArgs) (txs : list CallArgs)
    (blockNrOrHash : BlockNumberOrHash) (config : option (TraceConfig Extra)) :
  let cfg := setTraceConfigDefaultTracer config in
  CallMany api txs blockNrOrHash config = traceCallMany (eth api) txs blockNrOrHash cfg
  ∧ (∀ e, traceCall (eth api) args blockNrOrHash cfg = Err e →
       Call api args blockNrOrHash config = Err e)
  ∧ (traceCall (eth api) args blockNrOrHash cfg = Panic →
     Call api args blockNrOrHash config = Panic)
  ∧ (∀ res, traceCall (eth api) args blockNrOrHash cfg = Ok res →
       ∃ v, Call api args blockNrOrHash config = Ok v).
Proof.
  intros cfg. unfold Call, CallMany. fold cfg.
  split; [|split; [|split]].
  - now destruct (traceCallMany _ _ _ _).
  - now intros e ->.
  - now intros ->.
  - intros res ->. cbn. unfold decorateResponse.
    destruct cfg as [c|]; [|eauto].
    destruct (NestedTraceOutput c); [|eauto].
    destruct (Tracer c); eauto.
Qed.

(** X3. What [Call] returns when the call tracer returns [res]: without a
    configuration, or with nested output not requested, [res]; with nested
    output requested, [res] under "trace" when the tracer is not chosen or
    is "callTracerParity", [res] under "stateDiff" when it is
    "stateDiffTracer", and [res] for any other tracer. *)
Theorem Call_response_shape
    (api : PrivateTraceAPI ChainConfig) (args : CallArgs)
    (blockNrOrHash : BlockNumberOrHash) (config : option (TraceConfig Extra))
    (res : iface Dyn) :
  traceCall (eth api) args blockNrOrHash (setTraceConfigDefaultTracer config) = Ok res →
  (config = None → Call api args blockNrOrHash config = Ok res)
  ∧ (∀ c, config = Some c → NestedTraceOutput c = false →
       Call api args blockNrOrHash config = Ok res)
  ∧ (∀ c, config = Some c → NestedTraceOutput c = true →
       Tracer c = None ∨ Tracer c = Some "callTracerParity" →
       Call api args blockNrOrHash config = Ok (IMap {[ "trace" := res ]}))
  ∧ (∀ c, config = Some c → NestedTraceOutput c = true →
       Tracer c = Some "stateDiffTracer" →
       Call api args blockNrOrHash config = Ok (IMap {[ "stateDiff" := res ]}))
  ∧ (∀ c t, config = Some c → NestedTraceOutput c = true → Tracer c = Some t →
       t ≠ "callTracerParity" → t ≠ "stateDiffTracer" →
       Call api args blockNrOrHash config = Ok res).
Proof.
  intros Hres. unfold Call. rewrite Hres. cbn.
  split; [|split; [|split; [|split]]].
  - now intros ->.
  - intros c -> Hn. unfold setTraceConfigDefaultTracer, decorateResponse.
    destruct (Tracer c); cbn; now rewrite Hn.
  - intros c -> Hn Ht. unfold setTraceConfigDefaultTracer, decorateResponse.
    destruct Ht as [Ht | Ht]; rewrite Ht; cbn; rewrite Hn, ?Ht; cbn;
      unfold decorateNestedTraceResponse; rewrite ?decide_True by reflexivity;
      now rewrite insert_empty.
  - intros c -> Hn Ht. unfold setTraceConfigDefaultTracer, decorateResponse.
    rewrite Ht. cbn. rewrite Hn, Ht. unfold decorateNestedTraceResponse.
    rewrite decide_False by discriminate. rewrite decide_True by reflexivity.
    now rewrite insert_empty.
  - intros c t -> Hn Ht H1 H2. unfold setTraceConfigDefaultTracer, decorateResponse.
    rewrite Ht. cbn. rewrite Hn, Ht.
    now rewrite decorateNestedTraceResponse_other.
Qed.

(** X4. Under one configuration the decorator loses nothing: two results
    that are decorated to the same response are equal. *)
Theorem decorateResponse_injective
    (config : option (TraceConfig Extra)) (r1 r2 v : iface Dyn) :
  decorateResponse r1 config = Ok v → decorateResponse r2 config = Ok v → r1 = r2.
Proof.
  unfold decorateResponse.
  destruct config as [c|]; [|congruence].
  destruct (NestedTraceOutput c); [|congruence].
  destruct (Tracer c) as [t|]; [|congruence].
  unfold decorateNestedTraceResponse.
  destruct (decide (t = "callTracerParity")); [|destruct (decide (t = "stateDiffTracer"))];
    [| |congruence].
  - intros H1 H2.
    assert (Heq : <["trace" := r1]> (∅ : gmap string (iface Dyn)) = <["trace" := r2]> ∅)
      by congruence.
    apply (f_equal (fun m : gmap string (iface Dyn) => m !! "trace")) in Heq.
    rewrite !lookup_insert_eq in Heq. congruence.
  - intros H1 H2.
    assert (Heq : <["stateDiff" := r1]> (∅ : gmap string (iface Dyn))
                  = <["stateDiff" := r2]> ∅) by congruence.
    apply (f_equal (fun m : gmap string (iface Dyn) => m !! "stateDiff")) in Heq.
    rewrite !lookup_insert_eq in Heq. congruence.
Qed.

End HandlersAndConfiguration.

Lemma Call_outcomes_witness :
  Call (H := Faulty.collaborators) Demo.api 0%Z 0%Z None = Err "execution reverted"
  ∧ Call (H := Faulty.collaborators) Demo.api 1%Z 0%Z None = Panic
  ∧ ∃ v, Call (H := Faulty.collaborators) Demo.api 2%Z 0%Z None = Ok v.
Proof.
  destruct (@Call_outcomes Faulty.collaborators Demo.api 0%Z [] 0%Z None) as (_ & Herr & _).
  destruct (@Call_outcomes Faulty.collaborators Demo.api 1%Z [] 0%Z None) as (_ & _ & Hpanic & _).
  destruct (@Call_outcomes Faulty.collaborators Demo.api 2%Z [] 0%Z None) as (_ & _ & _ & Hok).
  split; [exact (Herr _ eq_refl)|]. split; [exact (Hpanic eq_refl)|].
  exact (Hok _ eq_refl).
Defined.

Lemma Call_response_shape_witness :
  Call (H := Demo.exact) Demo.api 1%Z 0%Z None = Ok (IRawMessage "[a]")
  ∧ Call (H := Demo.exact) Demo.api 1%Z 0%Z (Some (Demo.flat (Some "stateDiffTracer")))
    = Ok (IRawMessage "[a]")
  ∧ Call (H := Demo.exact) Demo.api 1%Z 0%Z (Some (Demo.nested (Some "callTracerParity")))
    = Ok (IMap {[ "trace" := IRawMessage "[a]" ]})
  ∧ Call (H := Demo.exact) Demo.api 1%Z 0%Z (Some (Demo.nested (Some "stateDiffTracer")))
    = Ok (IMap {[ "stateDiff" := IRawMessage "[a]" ]})
  ∧ Call (H := Demo.exact) Demo.api 1%Z 0%Z (Some (Demo.nested (Some "vmTrace")))
    = Ok (IRawMessage "[a]").
Proof.
  split; [|split; [|split; [|split]]].
  - apply (proj1 (@Call_response_shape Demo.exact Demo.api 1%Z 0%Z None _ eq_refl)).
    reflexivity.
  - apply (proj1 (proj2 (@Call_response_shape Demo.exact Demo.api 1%Z 0%Z
             (Some (Demo.flat (Some "stateDiffTracer"))) _ eq_refl))
             (Demo.flat (Some "stateDiffTracer"))); reflexivity.
  - apply (proj1 (proj2 (proj2 (@Call_response_shape Demo.exact Demo.api 1%Z 0%Z
             (Some (Demo.nested (Some "callTracerParity"))) _ eq_refl)))
             (Demo.nested (Some "callTracerParity"))); [reflexivity | reflexivity |].
    right. reflexivity.
  - apply (proj1 (proj2 (proj2 (proj2 (@Call_response_shape Demo.exact Demo.api 1%Z 0%Z
             (Some (Demo.nested (Some "stateDiffTracer"))) _ eq_refl))))
             (Demo.nested (Some "stateDiffTracer"))); reflexivity.
  - apply (proj2 (proj2 (proj2 (proj2 (@Call_response_shape Demo.exact Demo.api 1%Z 0%Z
             (Some (Demo.nested (Some "vmTrace"))) _ eq_refl))))
             (Demo.nested (Some "vmTrace")) "vmTrace");
      [reflexivity | reflexivity | reflexivity | discriminate | discriminate].
Defined.

Lemma decorateResponse_injective_witness :
  @IRawMessage string "[a]" = IRawMessage "[a]".
Proof.
  exact (@decorateResponse_injective Demo.exact
           (Some (Demo.nested (Some "callTracerParity")))
           (IRawMessage "[a]") (IRawMessage "[a]")
           (IMap {[ "trace" := IRawMessage "[a]" ]}) eq_refl eq_refl).
Defined.

(** ** Further properties of block resolution and reward records *)

Section BlockResolutionAndRewards.
Context `{Collaborators}.

Local Abbreviation trace := (ParityTrace (iface Dyn)).

(** X5. Which block [Block] traces: the miner's pending block for the
    pending sentinel; the chain head for the latest sentinel; otherwise the
    block stored at the number itself when it is non-negative, and at the
    number plus 2^64 when it is negative, which is what the conversion of a
    signed 64-bit number to [uint64] yields. *)
Theorem fetchBlock_cases (api : PrivateTraceAPI ChainConfig) (number : Z) :
  fetchBlock api PendingBlockNumber = PendingBlock (miner (eth api))
  ∧ (LatestBlockNumber ≠ PendingBlockNumber →
     fetchBlock api LatestBlockNumber = CurrentBlock (blockchain (eth api)))
  ∧ (number ≠ PendingBlockNumber → number ≠ LatestBlockNumber →
     (0 ≤ number < 2 ^ 63)%Z →
     fetchBlock api number = GetBlockByNumber (blockchain (eth api)) number)
  ∧ (number ≠ PendingBlockNumber → number ≠ LatestBlockNumber →
     (- 2 ^ 63 ≤ number < 0)%Z →
     fetchBlock api number = GetBlockByNumber (blockchain (eth api)) (number + 2 ^ 64)).
Proof.
  unfold fetchBlock, uint64_of. split; [|split; [|split]].
  - now rewrite decide_True.
  - intros Hne. rewrite decide_False by assumption. now rewrite decide_True.
  - intros H1 H2 Hrange. rewrite !decide_False by assumption.
    rewrite Z.mod_small by lia. reflexivity.
  - intros H1 H2 Hrange. rewrite !decide_False by assumption.
    f_equal. symmetry. apply Z.mod_unique with (q := (-1)%Z); lia.
Qed.

(** X6. Every reward record, of the block and of an uncle alike, carries
    the hash and the number of the traced block (an uncle record does not
    carry the uncle's own number), an empty error and a nil result; the
    number is the block's own whenever that fits 64 bits. *)
Theorem reward_records_block_identity
    (eth : Ethereum ChainConfig) (block : types.Block) (config : option (TraceConfig Extra)) :
  (∃ tr : trace,
      traceBlockReward eth block config = Ok (Some tr)
      ∧ BlockHash tr = types.Block_Hash block
      ∧ BlockNumber tr = types.Block_NumberU64 block
      ∧ Error tr = "" ∧ Result tr = INil)
  ∧ (∃ trs : list (option trace),
        traceBlockUncleRewards eth block config = Ok trs
        ∧ ∀ (i : nat) (tr : trace), trs !! i = Some (Some tr) →
            BlockHash tr = types.Block_Hash block
            ∧ BlockNumber tr = types.Block_NumberU64 block
            ∧ Error tr = "" ∧ Result tr = INil)
  ∧ ((0 ≤ types.Block_Number block < 2 ^ 64)%Z →
     types.Block_NumberU64 block = types.Block_Number block).
Proof.
  split; [|split].
  - eexists. split; [reflexivity|]. repeat split.
  - eexists. split; [reflexivity|]. intros i tr Htr.
    rewrite uncleRewardsLoop_lookup in Htr by apply length_replicate.
    rewrite decide_True, Nat.sub_0_r in Htr by lia.
    destruct (types.Block_Uncles block !! i) as [u|];
      [destruct (_ !! i) as [r|] in Htr|].
    + injection Htr as <-. repeat split.
    + apply lookup_replicate in Htr as [? _]. discriminate.
    + apply lookup_replicate in Htr as [? _]. discriminate.
  - intros Hrange. unfold types.Block_NumberU64, types.Block_Number, uint64_of in *.
    now apply Z.mod_small.
Qed.

Lemma omap_id_fmap_Some {A} (l : list A) : omap id (Some <$> l) = l.
Proof.
  induction l as [|x l IH]; [reflexivity|]. cbn. now rewrite IH.
Qed.

Lemma omap_id_replicate_None {A} (n : nat) : omap id (replicate n (@None A)) = [].
Proof.
  induction n as [|n IH]; [reflexivity|]. exact IH.
Qed.

(** X7. The slice of [traceBlockUncleRewards] holds min(U, R) records for U
    uncles and R consensus uncle rewards, and it is free of nil entries
    exactly when there are no more rewards than uncles. *)
Theorem traceBlockUncleRewards_records_and_nils
    (eth : Ethereum ChainConfig) (block : types.Block) (config : option (TraceConfig Extra)) :
  let uncles := types.Block_Uncles block in
  let uncleRewards :=
    (GetRewards (Config (blockchain eth)) (types.Block_Header block) uncles).2 in
  ∃ trs : list (option trace),
    traceBlockUncleRewards eth block config = Ok trs
    ∧ length (omap id trs) = length uncles `min` length uncleRewards
    ∧ (Forall is_Some trs ↔ length uncleRewards ≤ length uncles).
Proof.
  intros uncles uncleRewards.
  eexists. split; [apply traceBlockUncleRewards_closed_form|].
  fold uncles uncleRewards. split.
  - rewrite omap_app, omap_id_fmap_Some, omap_id_replicate_None, app_nil_r.
    apply length_zip_with.
  - rewrite Forall_app. split.
    + intros [_ Hnil].
      destruct (length uncleRewards - length uncles) as [|n] eqn:Hn; [lia|].
      cbn in Hnil. apply Forall_cons in Hnil as [[? Hnone] _]. discriminate Hnone.
    + intros Hle. split.
      * apply Forall_fmap, Forall_forall. intros x _. now exists x.
      * replace (length uncleRewards - length uncles) with 0 by lia. constructor.
Qed.

End BlockResolutionAndRewards.

Lemma fetchBlock_cases_witness :
  fetchBlock (H := Demo.exact) Demo.api (-1) = Some Demo.block100
  ∧ fetchBlock (H := Demo.exact) Demo.api 100 = Some Demo.block100
  ∧ fetchBlock (H := Demo.exact) Demo.api (-3)
    = GetBlockByNumber Demo.chain 18446744073709551613.
Proof.
  destruct (@fetchBlock_cases Demo.exact Demo.api 100) as (_ & Hlatest & Hnat & _).
  destruct (@fetchBlock_cases Demo.exact Demo.api (-3)) as (_ & _ & _ & Hneg).
  split; [apply Hlatest; discriminate|].
  split.
  - apply Hnat; [discriminate | discriminate | cbn; lia].
  - apply Hneg; [discriminate | discriminate | cbn; lia].
Defined.

Lemma reward_records_block_identity_witness :
  ∃ tr : ParityTrace (iface string),
    traceBlockUncleRewards (H := Demo.exact) Demo.node Demo.block100 None
      = Ok [Some tr;
            Some (rewardRecord (H := Demo.exact) "uncle" 502%Z (Some 1750%Z) Demo.block100)]
    ∧ BlockHash tr = 7100%Z ∧ BlockNumber tr = 100%Z
    ∧ types.Number Demo.uncleA = 98%Z.
Proof.
  destruct (@reward_records_block_identity Demo.exact Demo.node Demo.block100 None)
    as (_ & (trs & Htrs & Huncle) & Hfits).
  injection Htrs as <-.
  eexists. split; [reflexivity|].
  destruct (Huncle 0%nat _ eq_refl) as (Hhash & Hnum & _).
  split; [exact Hhash|]. split; [|reflexivity].
  transitivity (types.Block_NumberU64 Demo.block100); [exact Hnum|].
  apply Hfits. cbn. lia.
Defined.

(** ** Further properties of the block aggregator and the range validator *)

Section AggregationAndRanges.
Context `{Collaborators}.

Local Abbreviation value := (iface Dyn).
Local Abbreviation trace := (ParityTrace (iface Dyn)).
Local Abbreviation config_ptr := (option (TraceConfig Extra)).
Local Abbreviation uncleRecord block :=
  (fun (u : types.Header) (r : option Z) =>
     rewardRecord "uncle" (types.Coinbase u) r block).
Local Abbreviation blockRecord api block :=
  (rewardRecord "block" (types.Block_Coinbase block) (rewardsOf api block).1 block).

Lemma uncle_slice_length block (rw : list (option Z)) (us : list types.Header) :
  length (uncleRewardsLoop block rw 0 us (replicate (length rw) (@None trace))) = length rw.
Proof.
  rewrite uncleRewardsLoop_closed_form.
  rewrite length_app, length_fmap, length_zip_with, length_replicate. lia.
Qed.

Lemma uncle_slice_entry_not_block block (rw : list (option Z)) (us : list types.Header)
    (j : nat) (x : option trace) (author : Address) (amount : option Z) :
  uncleRewardsLoop block rw 0 us (replicate (length rw) None) !! j = Some x →
  x ≠ Some (rewardRecord "block" author amount block).
Proof.
  rewrite uncleRewardsLoop_lookup by apply length_replicate.
  rewrite decide_True, Nat.sub_0_r by lia.
  destruct (us !! j) as [u|]; [destruct (rw !! j) as [r|]|]; intros Hx.
  - injection Hx as <-. discriminate.
  - apply lookup_replicate in Hx as [-> _]. discriminate.
  - apply lookup_replicate in Hx as [-> _]. discriminate.
Qed.

Lemma zip_with_take_rewards {A B C} (f : A → B → C) (l : list A) (k : list B) :
  zip_with f (take (length k) l) k = zip_with f l k.
Proof.
  revert l. induction k as [|y k IH]; intros [|x l]; cbn; try reflexivity.
  now rewrite IH.
Qed.

(** X8. An array returned by [Block] is never empty, and its last element
    is the block-reward record exactly when the consensus returns no uncle
    reward for the block. *)
Theorem Block_last_record (api : PrivateTraceAPI ChainConfig) (number : Z)
    (config : config_ptr) (block : types.Block) (rs : list value) :
  fetchBlock api number = Some block →
  Block api number config = Ok rs →
  rs ≠ []
  ∧ (last rs = Some (IParityTrace (Some (blockRecord api block)))
     ↔ (rewardsOf api block).2 = []).
Proof.
  intros Hblock Hrs.
  apply Block_Ok_inv in Hrs as (block' & txs & decoded & trs & Hblock' & _ & _ & Htrs & ->).
  rewrite Hblock in Hblock'. injection Hblock' as <-.
  unfold traceBlockUncleRewards in Htrs. injection Htrs as <-.
  fold (rewardsOf api block).
  set (rw := (rewardsOf api block).2).
  set (slice := uncleRewardsLoop block rw 0 (types.Block_Uncles block) _).
  assert (Hlen : length slice = length rw) by apply uncle_slice_length.
  split; [now destruct (concat decoded)|].
  rewrite app_assoc, last_app, fmap_last, last_lookup, Hlen.
  split.
  - destruct (slice !! pred (length rw)) as [x|] eqn:Hx.
    + cbn. intros [= Heq]. exfalso.
      exact (uncle_slice_entry_not_block _ _ _ _ _ _ _ Hx Heq).
    + intros _. apply lookup_ge_None in Hx. apply nil_length_inv. lia.
  - intros Hnil. rewrite Hnil. rewrite lookup_ge_None_2 by (rewrite Hlen, Hnil; cbn; lia).
    cbn. apply last_snoc.
Qed.

(** X9. When the tracer reports a transaction without a raw payload (a nil
    entry, or an entry whose result is not a [json.RawMessage], such as a
    failed transaction that only carries an error message), [Block] panics:
    it returns neither an array nor an error. *)
Theorem Block_panics_without_payload (api : PrivateTraceAPI ChainConfig) (number : Z)
    (config : config_ptr) (block : types.Block)
    (pre post : list (option (txTraceResult Dyn))) (decoded : list (list value))
    (tx : option (txTraceResult Dyn)) :
  fetchBlock api number = Some block →
  traceBlockByNumber (eth api) number (setTraceConfigDefaultTracer config)
    = Ok (pre ++ tx :: post) →
  Forall2 decodesTo pre decoded →
  (tx = None ∨ ∃ r, tx = Some r ∧ ∀ raw, tx_Result r ≠ IRawMessage raw) →
  Block api number config = Panic.
Proof.
  intros Hblock Htxs Hpre Htx. unfold Block, BlockWith.
  rewrite Hblock, Htxs. cbn.
  now rewrite (appendTraceResults_foreign_payload _ _ _ _ Hpre Htx).
Qed.

(** X10. When the consensus returns no more uncle rewards than the block
    has uncles, the array of [Block] has no nil entry after the block
    reward: it is the flattened transaction entries, the block-reward
    record, and the records of the first R uncles, R being the number of
    rewards; the uncles beyond the R-th leave no trace in it. *)
Theorem Block_unrewarded_uncles_dropped (api : PrivateTraceAPI ChainConfig) (number : Z)
    (config : config_ptr) (block : types.Block)
    (txs : list (option (txTraceResult Dyn))) (decoded : list (list value)) :
  let uncles := types.Block_Uncles block in
  let uncleRewards := (rewardsOf api block).2 in
  fetchBlock api number = Some block →
  traceBlockByNumber (eth api) number (setTraceConfigDefaultTracer config) = Ok txs →
  Forall2 decodesTo txs decoded →
  length uncleRewards ≤ length uncles →
  Block api number config
    = Ok (concat decoded
          ++ [IParityTrace (Some (blockRecord api block))]
          ++ ((fun tr => IParityTrace (Some tr))
                <$> zip_with (uncleRecord block) (take (length uncleRewards) uncles)
                      uncleRewards))
  ∧ ∀ rs, Block api number config = Ok rs →
      length rs = length (concat decoded) + 1 + length uncleRewards.
Proof.
  intros uncles uncleRewards Hblock Htxs Hdec Hle.
  rewrite (Block_Ok _ _ _ _ _ _ Hblock Htxs Hdec). fold uncles uncleRewards.
  replace (length uncleRewards - length uncles) with 0 by lia.
  cbn [replicate]. rewrite app_nil_r, <- list_fmap_compose, zip_with_take_rewards.
  split; [reflexivity|].
  intros rs [= <-].
  rewrite length_app. cbn. rewrite length_fmap, length_zip_with. lia.
Qed.

(** X11. The aggregation never reads the error message of a per-transaction
    result: changing the messages changes nothing in what the loop of
    [Block] produces. *)
Theorem appendTraceResults_ignores_errors (relabel : string → string)
    (txs : list (option (txTraceResult Dyn))) (acc : list value) :
  appendTraceResults
    ((fun tx : option (txTraceResult Dyn) =>
        (fun r => {| tx_Result := tx_Result r; tx_Error := relabel (tx_Error r) |}) <$> tx)
       <$> txs)
    acc
  = appendTraceResults txs acc.
Proof.
  revert acc. induction txs as [|[r|] txs IH]; intros acc; cbn; try reflexivity.
  destruct (tx_Result r); try reflexivity.
  destruct (json_Unmarshal raw); cbn; [apply IH | reflexivity | reflexivity].
Qed.

(** X12. A range whose two ends are the same number is always refused:
    with the error of the missing starting block when no block is stored at
    that number, and with the error of the invalid range when one is. *)
Theorem Filter_single_block_refused (api : PrivateTraceAPI ChainConfig)
    (args : TraceFilterArgs) (config : config_ptr) :
  FromBlock args = ToBlock args →
  (GetBlockByNumber (blockchain (eth api)) (FromBlock args) = None →
   Filter api args config
     = Err ("starting block #" +:+ fmt_d (FromBlock args) +:+ " not found"))
  ∧ (∀ stored : types.Block,
       GetBlockByNumber (blockchain (eth api)) (FromBlock args) = Some stored →
       Filter api args config
         = Err ("end block (#" +:+ fmt_d (ToBlock args) +:+
                ") needs to come after start block (#" +:+ fmt_d (FromBlock args) +:+ ")")).
Proof.
  intros Heq. unfold Filter. rewrite <- Heq. split.
  - now intros ->.
  - intros stored ->. rewrite decide_True; [reflexivity|].
    unfold big_Cmp. rewrite Z.compare_refl. lia.
Qed.

(** X13. On a chain that stores under each number a block of that number,
    [Filter] decides on the requested numbers: with both ends stored, it
    starts the chain tracer when [fromBlock] < [toBlock] and refuses the
    range as invalid otherwise. *)
Theorem Filter_on_numbered_chain (api : PrivateTraceAPI ChainConfig)
    (args : TraceFilterArgs) (config : config_ptr) (from to : types.Block) :
  let stored := GetBlockByNumber (blockchain (eth api)) in
  (∀ n b, stored n = Some b → types.Block_Number b = n) →
  stored (FromBlock args) = Some from →
  stored (ToBlock args) = Some to →
  ((FromBlock args < ToBlock args)%Z →
   Filter api args config
     = traceChain (eth api) from to (setTraceConfigDefaultTracer config))
  ∧ ((ToBlock args ≤ FromBlock args)%Z →
     Filter api args config
       = Err ("end block (#" +:+ fmt_d (ToBlock args) +:+
              ") needs to come after start block (#" +:+ fmt_d (FromBlock args) +:+ ")")).
Proof.
  intros stored Hnumbered Hfrom Hto. unfold Filter. fold stored.
  rewrite Hfrom, Hto.
  apply Hnumbered in Hfrom, Hto.
  split; intros Hcmp.
  - rewrite decide_False; [reflexivity|]. rewrite big_Cmp_ge_0. lia.
  - rewrite decide_True; [reflexivity|]. rewrite big_Cmp_ge_0. lia.
Qed.

End AggregationAndRanges.

Lemma Block_last_record_witness :
  ∃ rs : list (iface string),
    Block (H := Demo.exact) Demo.api 10 None = Ok rs
    ∧ rs ≠ []
    ∧ last rs
      = Some (IParityTrace
                (Some (rewardRecord (H := Demo.exact) "block" 410%Z (Some 2000%Z)
                         (Demo.plainBlock 10)))).
Proof.
  eexists. split; [reflexivity|].
  destruct (@Block_last_record Demo.exact Demo.api 10 None (Demo.plainBlock 10) _
              eq_refl eq_refl) as [Hne Hlast].
  split; [exact Hne|]. apply Hlast. reflexivity.
Defined.

Lemma Block_panics_without_payload_witness :
  Block (H := Faulty.collaborators) Demo.api 100 None = Panic.
Proof.
  apply (@Block_panics_without_payload Faulty.collaborators Demo.api 100 None Demo.block100
           [Demo.payload "[a]"] [Demo.payload "[b,c]"] [[IOther "a"]]
           (Faulty.failed "execution reverted")).
  - reflexivity.
  - reflexivity.
  - repeat constructor. eexists _, _; repeat split.
  - right. eexists. split; [reflexivity|]. discriminate.
Defined.

Lemma Block_unrewarded_uncles_dropped_witness :
  Block (H := Demo.short) Demo.api 100 None
    = Ok [IOther "a"; IOther "b"; IOther "c";
          IParityTrace (Some (rewardRecord (H := Demo.short) "block" 500%Z (Some 2124%Z)
                                Demo.block100));
          IParityTrace (Some (rewardRecord (H := Demo.short) "uncle" 501%Z (Some 1500%Z)
                                Demo.block100))].
Proof.
  refine (proj1 (@Block_unrewarded_uncles_dropped Demo.short Demo.api 100 None Demo.block100
                   [Demo.payload "[a]"; Demo.payload "[b,c]"]
                   [[IOther "a"]; [IOther "b"; IOther "c"]] eq_refl eq_refl _ _)).
  - repeat constructor; eexists _, _; repeat split.
  - cbn. lia.
Defined.

Lemma Filter_single_block_refused_witness :
  Filter (H := Demo.exact) Demo.api (Demo.range 5 5) None
    = Err "starting block #5 not found"
  ∧ Filter (H := Demo.exact) Demo.api (Demo.range 100 100) None
    = Err "end block (#100) needs to come after start block (#100)".
Proof.
  split.
  - apply (proj1 (@Filter_single_block_refused Demo.exact Demo.api (Demo.range 5 5) None
                    eq_refl)).
    reflexivity.
  - apply (proj2 (@Filter_single_block_refused Demo.exact Demo.api (Demo.range 100 100) None
                    eq_refl) Demo.block100).
    reflexivity.
Defined.

Lemma Filter_on_numbered_chain_witness :
  Filter (H := Demo.exact) Demo.api (Demo.range 11 100) None = Ok (Some (11, 100)%Z)
  ∧ Filter (H := Demo.exact) Demo.api (Demo.range 100 11) None
    = Err "end block (#11) needs to come after start block (#100)".
Proof.
  assert (Hnumbered : ∀ n b, GetBlockByNumber Demo.chain n = Some b → types.Block_Number b = n).
  { intros n b. cbn. repeat case_decide; intros [= <-]; [symmetry; assumption | reflexivity]. }
  split.
  - apply (proj1 (@Filter_on_numbered_chain Demo.exact Demo.api (Demo.range 11 100) None
             (Demo.plainBlock 11) Demo.block100 Hnumbered eq_refl eq_refl)).
    cbn. lia.
  - apply (proj2 (@Filter_on_numbered_chain Demo.exact Demo.api (Demo.range 100 11) None
             Demo.block100 (Demo.plainBlock 11) Hnumbered eq_refl eq_refl)).
    cbn. lia.
Defined.

Section FilterArguments.
Context `{Collaborators}.

(** X14. [Filter] reads nothing of a request but its two block numbers: two
    requests with the same [fromBlock] and [toBlock] have the same outcome,
    whatever their address filters, offset and count. *)
Theorem Filter_reads_only_block_numbers (api : PrivateTraceAPI ChainConfig)
    (args args' : TraceFilterArgs) (config : option (TraceConfig Extra)) :
  FromBlock args = FromBlock args' → ToBlock args = ToBlock args' →
  Filter api args config = Filter api args' config.
Proof.
  intros Hfrom Hto. unfold Filter. now rewrite Hfrom, Hto.
Qed.

End FilterArguments.

Lemma Filter_reads_only_block_numbers_witness :
  Filter (H := Demo.exact) Demo.api
    {| FromBlock := 10; ToBlock := 11; FromAddress := Some 501%Z; ToAddress := Some 502%Z;
       After := 1000; Count := 1 |} None
  = Filter (H := Demo.exact) Demo.api (Demo.range 10 11) None.
Proof.
  apply (@Filter_reads_only_block_numbers Demo.exact); reflexivity.
Defined.
